(** * sokutei: a shallow embedding of the benchmark runner and its statistics

    The development follows the Go sources:
    - the helpers [denominators], [units], [list2Cmdline],
      [getMeasurementMetrics] and [stdev],
    - the [timer] interface and its Windows implementation [windowsTimer]
      ([measure_windows.go]),
    - [runSetup], [runBenchmark] and the comparison summary of [main]
      ([main.go]).

    Go's [int64] is modelled as [Z] with the two's-complement wrap-around
    written out ([wrap64]); Go's [float64] is modelled by Rocq's primitive
    binary64 floats; a Go [string] ranged over with [for i, ch := range] is
    modelled by the list of runes that the loop yields. *)

From Stdlib Require Import ZArith List Bool Lia String Floats.
From Stdlib Require Import Sorting.Permutation Sorting.Sorted.
Import ListNotations.

Local Open Scope Z_scope.

(* ================================================================== *)
(** ** Machine integers *)

Module Int64.

Definition MinInt64 : Z := - 2 ^ 63.
Definition MaxInt64 : Z := 2 ^ 63 - 1.

Definition in_range (z : Z) : Prop := MinInt64 <= z <= MaxInt64.

(** Two's-complement reduction of a mathematical integer to [int64]. *)
Definition wrap64 (z : Z) : Z := (z + 2 ^ 63) mod 2 ^ 64 - 2 ^ 63.

Definition add (a b : Z) : Z := wrap64 (a + b).
Definition sub (a b : Z) : Z := wrap64 (a - b).
Definition mul (a b : Z) : Z := wrap64 (a * b).

End Int64.

Import Int64.

(* ================================================================== *)
(** ** Panics and Go-style results *)

(** The two panics of [strings.Repeat]. *)
Inductive repeat_panic : Set :=
| NegativeRepeatCount
| RepeatOverflow.

(** Run-time panics that the modelled code can raise. *)
Inductive panic : Type :=
| DivideByZero
| IndexOutOfRange
| MakeSliceLenOutOfRange
| StringsRepeat (p : repeat_panic).

(** A computation either completes with a value or panics. *)
Inductive exec (A : Type) : Type :=
| Done (a : A)
| Panicked (p : panic).

Arguments Done {A} a.
Arguments Panicked {A} p.

Definition bind {A B : Type} (m : exec A) (k : A -> exec B) : exec B :=
  match m with
  | Done a => k a
  | Panicked p => Panicked p
  end.

Notation "x <- m ;; k" := (bind m (fun x => k))
  (at level 61, m at next level, right associativity).

(** Go's integer quotient [a / b] on [int64]: truncated towards zero, a
    run-time panic when [b] is zero, and [MinInt64 / -1] wraps. *)
Definition div64 (a b : Z) : exec Z :=
  if b =? 0 then Panicked DivideByZero else Done (wrap64 (Z.quot a b)).

(* ================================================================== *)
(** ** Floating point *)

Definition float64 : Set := float.

(** The conversion [float64(x)] of an [int64]: round to nearest, ties to
    even, in binary64. *)
Definition float64_of_int64 (z : Z) : float64 :=
  SF2Prim (binary_normalize 53 1024 z 0 false).

(* ================================================================== *)
(** ** Strings *)

(** A rune is a Unicode code point. *)
Definition rune : Set := Z.

(** The runes of a Go string, in the order in which [range] yields them.
    In [list2Cmdline] the test [cmd[i-1] != '\\'] looks at the byte just
    before the current rune; that byte is [0x5C] exactly when the previous
    rune is a backslash, because every byte of a multi-byte or invalid
    sequence is at least [0x80]. *)
Definition gostring : Set := list rune.

Definition rune_dquote : rune := 34.
Definition rune_squote : rune := 39.
Definition rune_backslash : rune := 92.
Definition rune_space : rune := 32.
Definition rune_tab : rune := 9.

(* ================================================================== *)
(** ** Utilities: durations, units, tokenizer, statistics *)

Definition Nanosecond : Z := 1.
Definition Microsecond : Z := 1000 * Nanosecond.
Definition Millisecond : Z := 1000 * Microsecond.
Definition Second : Z := 1000 * Millisecond.
Definition Minute : Z := 60 * Second.
Definition Hour : Z := 60 * Minute.

Definition denominators : list Z :=
  [Hour; Minute; Second; Millisecond; Microsecond; Nanosecond].

Definition units : list string :=
  ["h"; "m"; "s"; "ms"; "µs"; "ns"]%string.

(** State of the [list2Cmdline] loop: the parts emitted so far, the open
    quote ([0] when none), the builder, and the previous rune ([None] at
    index 0). *)
Record tokenizer : Set := mkTokenizer {
  cmdParts : list gostring;
  inQuote : rune;
  b : gostring;
  prev : option rune
}.

Definition is_quote (ch : rune) : bool :=
  (ch =? rune_dquote) || (ch =? rune_squote).

Definition is_blank (ch : rune) : bool :=
  (ch =? rune_space) || (ch =? rune_tab).

Definition not_escaped (p : option rune) : bool :=
  match p with
  | None => true
  | Some c => negb (c =? rune_backslash)
  end.

(** One iteration of the loop body of [list2Cmdline]. *)
Definition tokenizer_step (st : tokenizer) (ch : rune) : tokenizer :=
  if is_quote ch && not_escaped (prev st) then
    if inQuote st =? 0 then
      mkTokenizer (cmdParts st) ch (b st) (Some ch)
    else if inQuote st =? ch then
      mkTokenizer (cmdParts st) 0 (b st) (Some ch)
    else
      mkTokenizer (cmdParts st) (inQuote st) (b st ++ [ch]) (Some ch)
  else if is_blank ch && (inQuote st =? 0) then
    mkTokenizer (cmdParts st ++ [b st]) (inQuote st) [] (Some ch)
  else
    mkTokenizer (cmdParts st) (inQuote st) (b st ++ [ch]) (Some ch).

Definition list2Cmdline (cmd : gostring) : list gostring :=
  let st := fold_left tokenizer_step cmd (mkTokenizer [] 0 [] None) in
  cmdParts st ++ [b st].

(** The scan of [getMeasurementMetrics] from tier [i] on. *)
Fixpoint getMeasurementMetrics_from (i : nat) (ds : list Z) (timing : Z)
  : exec (float64 * string) :=
  match ds with
  | [] => Done (0%float, EmptyString)
  | denominator :: rest =>
      q <- div64 timing denominator ;;
      if q >? 0 then
        match nth_error units i with
        | Some u => Done (float64_of_int64 denominator, u)
        | None => Panicked IndexOutOfRange
        end
      else getMeasurementMetrics_from (S i) rest timing
  end.

Definition getMeasurementMetrics (timing : Z) : exec (float64 * string) :=
  getMeasurementMetrics_from 0 denominators timing.

(** The accumulation loop of [stdev]. *)
Definition stdev_numerator (values : list Z) (mean : Z) : Z :=
  fold_left (fun numerator value =>
               let delta := sub value mean in
               add numerator (mul delta delta))
            values 0.

Definition stdev (values : list Z) (mean : Z) : float64 :=
  PrimFloat.sqrt
    (PrimFloat.div
       (float64_of_int64 (stdev_numerator values mean))
       (float64_of_int64 (Z.of_nat (List.length values) - 1))).

(* ================================================================== *)
(** ** The environment: what the operating system does with one launch *)

Inductive error : Type :=
| ErrEmptyCommand            (* errors.New("empty command string") *)
| ErrStart (errno : Z)       (* the process could not be started *)
| ErrExit (code : Z)         (* *exec.ExitError: non-zero exit status *)
| ErrWait (errno : Z)        (* waiting for the process failed *)
| ErrSyscall (errno : Z).    (* a Windows API call failed *)

(** How a started child ends. *)
Inductive wait_result : Type :=
| Exited (code : Z)
| WaitFailed (errno : Z).

(** [os/exec]: [Cmd.Wait] returns [nil] when the command runs and exits
    with a zero exit status, and an [*ExitError] when it exits with any
    other status. *)
Definition cmd_Wait (r : wait_result) : option error :=
  match r with
  | Exited code => if code =? 0 then None else Some (ErrExit code)
  | WaitFailed errno => Some (ErrWait errno)
  end.

Definition handle : Set := Z.
Definition InvalidHandle : handle := -1.
Definition ERROR_NO_MORE_FILES : Z := 18.

(** One entry of the thread snapshot: owner process, thread id, and the
    outcome of [OpenThread] on it. *)
Record ThreadEntry32 : Set := mkThreadEntry {
  OwnerProcessID : Z;
  ThreadID : Z;
  openThread : handle + Z         (* a handle, or the errno of the failure *)
}.

(** Everything the operating system decides about one process launch. *)
Record launch : Set := mkLaunch {
  start_err : option Z;            (* cmd.Start() *)
  Pid : Z;
  createJob : handle + Z;          (* windows.CreateJobObject *)
  openProcess : handle + Z;        (* windows.OpenProcess *)
  assign_err : option Z;           (* windows.AssignProcessToJobObject *)
  snapshot : list ThreadEntry32 + Z; (* windows.CreateToolhelp32Snapshot *)
  wait_res : wait_result;          (* how the child ends *)
  elapsed : Z;                     (* time.Since(startTime) *)
  query_err : option Z;            (* windows.QueryInformationJobObject *)
  TotalUserTime : Z;
  TotalKernelTime : Z
}.

(** [exec.Cmd.Run]: start, then wait. *)
Definition cmd_Run (l : launch) : option error :=
  match start_err l with
  | Some errno => Some (ErrStart errno)
  | None => cmd_Wait (wait_res l)
  end.

(* ================================================================== *)
(** ** The Windows timer *)

Record windowsTimer : Set := mkWindowsTimer {
  userTime : Z;
  kernelTime : Z;
  realTime : Z;
  jobObject : handle
}.

Definition HundredNSTicks : Z := 100.

(** The loop of [getMainThreadOfPID] over the snapshot, from
    [Thread32First] on; running off the end leaves the error of
    [Thread32Next]. *)
Fixpoint getMainThreadOfPID_scan (entries : list ThreadEntry32) (pid : Z)
  : handle * option error :=
  match entries with
  | [] => (0, Some (ErrSyscall ERROR_NO_MORE_FILES))
  | threadEntry :: rest =>
      if OwnerProcessID threadEntry =? pid then
        match openThread threadEntry with
        | inl hThread => (hThread, None)
        | inr errno => (InvalidHandle, Some (ErrSyscall errno))
        end
      else getMainThreadOfPID_scan rest pid
  end.

Definition getMainThreadOfPID (l : launch) (pid : Z) : handle * option error :=
  match snapshot l with
  | inr errno => (InvalidHandle, Some (ErrSyscall errno))
  | inl entries => getMainThreadOfPID_scan entries pid
  end.

(** [windowsTimer.Run]; the deferred [terminateJobObject] and
    [CloseHandle] discard their results and do not change what is
    returned. *)
Definition windowsTimer_Run (l : launch) (name : gostring)
  (arg : list gostring) (w : windowsTimer) : windowsTimer * option error :=
  match start_err l with
  | Some errno => (w, Some (ErrStart errno))
  | None =>
  let pid := Pid l in
  match createJob l with
  | inr errno => (w, Some (ErrSyscall errno))
  | inl job =>
  match openProcess l with
  | inr errno => (w, Some (ErrSyscall errno))
  | inl hProcess =>
  match assign_err l with
  | Some errno => (w, Some (ErrSyscall errno))
  | None =>
  match getMainThreadOfPID l pid with
  | (_, Some err) => (w, Some err)
  | (hThread, None) =>
  match cmd_Wait (wait_res l) with
  | Some err => (w, Some err)
  | None =>
  let w1 := mkWindowsTimer (userTime w) (kernelTime w) (elapsed l) (jobObject w) in
  match query_err l with
  | Some errno => (w1, Some (ErrSyscall errno))
  | None =>
      (mkWindowsTimer (TotalUserTime l) (TotalKernelTime l) (realTime w1)
         (jobObject w1), None)
  end end end end end end end.

Definition windowsTimer_GetUserTime (w : windowsTimer) : Z :=
  mul (userTime w) HundredNSTicks.

Definition windowsTimer_GetKernelTime (w : windowsTimer) : Z :=
  mul (kernelTime w) HundredNSTicks.

Definition windowsTimer_GetRealTime (w : windowsTimer) : Z := realTime w.

Definition windowsTimer_Reset (w : windowsTimer) : windowsTimer :=
  mkWindowsTimer 0 0 0 (jobObject w).

(** The [timer] interface. *)
Class timer (T : Type) : Type := {
  GetUserTime : T -> Z;
  GetKernelTime : T -> Z;
  GetRealTime : T -> Z;
  Run : launch -> gostring -> list gostring -> T -> T * option error;
  Reset : T -> T
}.

#[export] Instance windowsTimer_timer : timer windowsTimer := {
  GetUserTime := windowsTimer_GetUserTime;
  GetKernelTime := windowsTimer_GetKernelTime;
  GetRealTime := windowsTimer_GetRealTime;
  Run := windowsTimer_Run;
  Reset := windowsTimer_Reset
}.

(* ================================================================== *)
(** ** Slices *)

(** [make([]int64, n)]. *)
Definition make_slice (n : Z) : exec (list Z) :=
  if n <? 0 then Panicked MakeSliceLenOutOfRange
  else Done (repeat 0 (Z.to_nat n)).

Fixpoint update (l : list Z) (i : nat) (v : Z) : list Z :=
  match l, i with
  | [], _ => []
  | _ :: tl, O => v :: tl
  | x :: tl, S i' => x :: update tl i' v
  end.

(** [s[i] = v]. *)
Definition slice_set (s : list Z) (i : Z) (v : Z) : exec (list Z) :=
  if (0 <=? i) && (i <? Z.of_nat (List.length s))
  then Done (update s (Z.to_nat i) v)
  else Panicked IndexOutOfRange.

(** [s[i]]. *)
Definition slice_get (s : list Z) (i : Z) : exec Z :=
  if (0 <=? i) && (i <? Z.of_nat (List.length s))
  then Done (nth (Z.to_nat i) s 0)
  else Panicked IndexOutOfRange.

(* ================================================================== *)
(** ** The progress bar *)

Definition progressDoneRune : rune := 9608.      (* U+2588 *)
Definition progressPendingRune : rune := 9618.   (* U+2592 *)

Inductive drawn (A : Type) : Type :=
| Drawn (a : A)
| RepeatPanicked (p : repeat_panic).

Arguments Drawn {A} a.
Arguments RepeatPanicked {A} p.

(** [strings.Repeat(s, count)] for a string [s] of one rune whose UTF-8
    encoding takes [byteLen] bytes: a panic for a negative count and when
    the length of the output overflows [int]. *)
Definition strings_Repeat (r : rune) (byteLen : Z) (count : Z)
  : drawn gostring :=
  if count <? 0 then RepeatPanicked NegativeRepeatCount
  else if MaxInt64 <? byteLen * count then RepeatPanicked RepeatOverflow
  else Drawn (repeat r (Z.to_nat count)).

Section ProgressLine.

(** The conversion [int(x)] of a [float64]; Go leaves its result open
    when the value does not fit, so it is a parameter here. *)
Variable int_of_float64 : float64 -> Z.

(** The bar that [printProgressLine] builds: [lineLen] is [len(line)] and
    [terminalWidth] the width that [term.GetSize] reported (0 when it
    failed, its error being dropped). *)
Definition printProgressLine_bar (lineLen : Z) (progress : float64)
  (terminalWidth : Z) : drawn gostring :=
  let terminalWidth := sub terminalWidth (add (add lineLen 2) 12) in
  let progressChunks :=
    int_of_float64
      (PrimFloat.mul progress (float64_of_int64 terminalWidth)) in
  match strings_Repeat progressDoneRune 3 progressChunks with
  | RepeatPanicked p => RepeatPanicked p
  | Drawn progressLine =>
      match strings_Repeat progressPendingRune 3
              (sub terminalWidth progressChunks) with
      | RepeatPanicked p => RepeatPanicked p
      | Drawn pending => Drawn (progressLine ++ pending)
      end
  end.

End ProgressLine.

(** What the runner reads from its surroundings each time it prints a
    progress line: the width [term.GetSize] reports when the [n]-th line
    is printed (0 when it fails), the length [len(line)] of the text that
    [fmt.Sprintf] and the colour library produce for the shown estimate
    and unit, and the conversion [int(x)]. *)
Record console : Type := mkConsole {
  term_GetSize : nat -> Z;
  line_len : float64 -> string -> Z;
  float_to_int : float64 -> Z
}.

(* ================================================================== *)
(** ** The benchmark runner *)

Record benchmarkResult : Set := mkBenchmarkResult {
  r_cmd : gostring;
  r_mean : Z;
  r_stdev : float64;
  r_min : Z;
  r_max : Z;
  r_denominator : float64;
  r_unit : string;
  r_meanUserTime : Z;
  r_userDenominator : float64;
  r_userUnit : string;
  r_meanKernelTime : Z;
  r_kernelDenominator : float64;
  r_kernelUnit : string
}.

(** What one call of [printProgressLine] is given. *)
Record progress : Set := mkProgress {
  shown_estimate : float64;  (* float64(currentEstimate)/currentDenominator *)
  shown_unit : string;       (* currentUnitEstimate *)
  fraction : float64;        (* float64(i+1)/float64(runs) *)
  eta : Z                    (* etaEstimate *)
}.

(** A Go [(value, error)] pair. *)
Inductive result (A : Type) : Type :=
| Ok (a : A)
| Err (e : error).

Arguments Ok {A} a.
Arguments Err {A} e.

(** The mutable state around the runner: how many processes have been
    launched so far, the global [processTimer], and the progress lines
    printed. *)
Record world (T : Type) : Type := mkWorld {
  launched : nat;
  processTimer : T;
  printed : list progress
}.

Arguments mkWorld {T} _ _ _.
Arguments launched {T} _.
Arguments processTimer {T} _.
Arguments printed {T} _.

(** The local variables of the measuring loop. *)
Record measuring : Set := mkMeasuring {
  currentEstimate : Z;
  totalUserTime : Z;
  totalKernelTime : Z;
  elapsedRuns : list Z
}.

(** The running-mean update of the measuring loop:
    [(currentEstimate*i + elapsedRuns[i]) / (i + 1)]. *)
Definition updateRunningMean (previousMean previousCount newSample : Z)
  : exec Z :=
  div64 (add (mul previousMean previousCount) newSample)
        (add previousCount 1).

(** The accumulators of the aggregation loop:
    [minElapsed], [maxElapsed], [totalElapsed]. *)
Definition aggregate_step (acc : Z * Z * Z) (elapsed : Z) : Z * Z * Z :=
  let '(minElapsed, maxElapsed, totalElapsed) := acc in
  (if elapsed <? minElapsed then elapsed else minElapsed,
   if elapsed >? maxElapsed then elapsed else maxElapsed,
   add totalElapsed elapsed).

Definition aggregate_loop (elapsedRuns : list Z) : Z * Z * Z :=
  fold_left aggregate_step elapsedRuns (MaxInt64, MinInt64, 0).

Section Runner.

Context {T : Type} `{timer T}.

(** [env k] is what the system does with the [k]-th process launched. *)
Variable env : nat -> launch.

(** The terminal and the formatting of the progress line. *)
Variable con : console.

(** The flags [-runs] and [-warmup]. *)
Variables runs warmup : Z.

Definition runSetup (cmdToSetup : gostring) (w : world T)
  : world T * option error :=
  match list2Cmdline cmdToSetup with
  | [] => (w, Some ErrEmptyCommand)
  | name :: args =>
      (mkWorld (S (launched w)) (processTimer w) (printed w),
       cmd_Run (env (launched w)))
  end.

(** The warmup loop, [n] iterations left, [k] processes launched. *)
Fixpoint warmup_loop (n : nat) (k : nat) : nat * option error :=
  match n with
  | O => (k, None)
  | S n' =>
      match cmd_Run (env k) with
      | Some err => (S k, Some err)
      | None => warmup_loop n' (S k)
      end
  end.

(** The body of the measuring loop at index [i]; it ends with
    [printProgressLine], which panics when the bar cannot be built. *)
Definition measure_body (name : gostring) (args : list gostring) (i : Z)
  (m : measuring) (w : world T) : exec (measuring * world T * option error) :=
  let t := Reset (processTimer w) in
  let ran := Run (env (launched w)) name args t in
  let w1 := mkWorld (S (launched w)) (fst ran) (printed w) in
  match snd ran with
  | Some err => Done (m, w1, Some err)
  | None =>
      let totalUserTime' := add (totalUserTime m) (GetUserTime (fst ran)) in
      let totalKernelTime' := add (totalKernelTime m) (GetKernelTime (fst ran)) in
      elapsedRuns' <- slice_set (elapsedRuns m) i (GetRealTime (fst ran)) ;;
      sample <- slice_get elapsedRuns' i ;;
      currentEstimate' <- updateRunningMean (currentEstimate m) i sample ;;
      metrics <- getMeasurementMetrics currentEstimate' ;;
      let etaEstimate := mul currentEstimate' (sub runs i) in
      let line :=
        mkProgress
          (PrimFloat.div (float64_of_int64 currentEstimate') (fst metrics))
          (snd metrics)
          (PrimFloat.div (float64_of_int64 (add i 1)) (float64_of_int64 runs))
          etaEstimate in
      match printProgressLine_bar (float_to_int con)
              (line_len con (shown_estimate line) (shown_unit line))
              (fraction line)
              (term_GetSize con (List.length (printed w))) with
      | RepeatPanicked p => Panicked (StringsRepeat p)
      | Drawn _ =>
          Done (mkMeasuring currentEstimate' totalUserTime' totalKernelTime'
                  elapsedRuns',
                mkWorld (launched w1) (processTimer w1) (printed w1 ++ [line]),
                None)
      end
  end.

(** The measuring loop, [n] iterations left, at index [i]. *)
Fixpoint measure_loop (name : gostring) (args : list gostring) (n : nat)
  (i : Z) (m : measuring) (w : world T)
  : exec (measuring * world T * option error) :=
  match n with
  | O => Done (m, w, None)
  | S n' =>
      step <- measure_body name args i m w ;;
      match step with
      | (m', w', Some err) => Done (m', w', Some err)
      | (m', w', None) => measure_loop name args n' (add i 1) m' w'
      end
  end.

(** Everything [runBenchmark] does after the measuring loop. *)
Definition aggregate (cmdToBenchmark : gostring) (m : measuring)
  : exec benchmarkResult :=
  let acc := aggregate_loop (elapsedRuns m) in
  let minElapsed := fst (fst acc) in
  let maxElapsed := snd (fst acc) in
  let totalElapsed := snd acc in
  mean <- div64 totalElapsed runs ;;
  meanUserTime <- div64 (totalUserTime m) runs ;;
  meanKernelTime <- div64 (totalKernelTime m) runs ;;
  let sd := stdev (elapsedRuns m) mean in
  real <- getMeasurementMetrics mean ;;
  user <- getMeasurementMetrics meanUserTime ;;
  kernel <- getMeasurementMetrics meanKernelTime ;;
  Done (mkBenchmarkResult cmdToBenchmark mean sd minElapsed maxElapsed
          (fst real) (snd real)
          meanUserTime (fst user) (snd user)
          meanKernelTime (fst kernel) (snd kernel)).

(** [runBenchmark] once [cmdParts] is known to be [name :: args]. *)
Definition runBenchmark_parts (cmdToBenchmark : gostring) (name : gostring)
  (args : list gostring) (w : world T)
  : exec (world T * result benchmarkResult) :=
  let warm := warmup_loop (Z.to_nat warmup) (launched w) in
  let w1 := mkWorld (fst warm) (processTimer w) (printed w) in
  match snd warm with
  | Some err => Done (w1, Err err)
  | None =>
      slice <- make_slice runs ;;
      looped <- measure_loop name args (Z.to_nat runs) 0
                  (mkMeasuring 0 0 0 slice) w1 ;;
      match looped with
      | (m, w2, Some err) => Done (w2, Err err)
      | (m, w2, None) =>
          res <- aggregate cmdToBenchmark m ;;
          Done (w2, Ok res)
      end
  end.

Definition runBenchmark (cmdToBenchmark : gostring) (w : world T)
  : exec (world T * result benchmarkResult) :=
  match list2Cmdline cmdToBenchmark with
  | [] => Done (w, Err ErrEmptyCommand)
  | name :: args => runBenchmark_parts cmdToBenchmark name args w
  end.

End Runner.

(* ================================================================== *)
(** ** The comparison summary of [main] *)

(** [sort.SliceStable] with the comparison [less]: an insertion that keeps
    the input order of elements that compare equal. *)
Section SliceStable.

Context {A : Type}.
Variable less : A -> A -> bool.

Fixpoint insert_stable (x : A) (l : list A) : list A :=
  match l with
  | [] => [x]
  | y :: ys => if less y x then y :: insert_stable x ys else x :: y :: ys
  end.

Fixpoint SliceStable (l : list A) : list A :=
  match l with
  | [] => []
  | x :: xs => insert_stable x (SliceStable xs)
  end.

End SliceStable.

(** A line of the summary. *)
Inductive summary_line : Set :=
| Ran (cmd : gostring)
| TimesFaster (meanMultiplier : float64) (spread : float64) (cmd : gostring).

Definition meanMultiplier_of (res fastestResult : benchmarkResult) : float64 :=
  PrimFloat.div (float64_of_int64 (r_mean res))
                (float64_of_int64 (r_mean fastestResult)).

Definition posStdevMultiplier_of (res fastestResult : benchmarkResult)
  : float64 :=
  PrimFloat.sub
    (PrimFloat.div
       (PrimFloat.add (float64_of_int64 (r_mean res)) (r_stdev res))
       (PrimFloat.add (float64_of_int64 (r_mean fastestResult))
                      (r_stdev fastestResult)))
    (meanMultiplier_of res fastestResult).

Definition negStdevMultiplier_of (res fastestResult : benchmarkResult)
  : float64 :=
  PrimFloat.sub
    (meanMultiplier_of res fastestResult)
    (PrimFloat.div
       (PrimFloat.sub (float64_of_int64 (r_mean res)) (r_stdev res))
       (PrimFloat.sub (float64_of_int64 (r_mean fastestResult))
                      (r_stdev fastestResult))).

(** The body of the summary loop; [fastestResult] is [None] for Go's
    [nil]. *)
Definition summary_step
  (st : option benchmarkResult * list summary_line) (res : benchmarkResult)
  : option benchmarkResult * list summary_line :=
  match fst st with
  | None => (Some res, snd st ++ [Ran (r_cmd res)])
  | Some fastestResult =>
      (Some fastestResult,
       snd st ++
         [TimesFaster
            (meanMultiplier_of res fastestResult)
            (PrimFloat.add
               (PrimFloat.abs (posStdevMultiplier_of res fastestResult))
               (PrimFloat.abs (negStdevMultiplier_of res fastestResult)))
            (r_cmd res)])
  end.

Definition less_mean (a b : benchmarkResult) : bool := r_mean a <? r_mean b.

(** The last block of [main]. *)
Definition summary (results : list benchmarkResult) : list summary_line :=
  if (1 <? Z.of_nat (List.length results)) then
    snd (fold_left summary_step (SliceStable less_mean results) (None, []))
  else [].

(* ================================================================== *)
(** ** Vocabulary of the statements *)

(** The magnitude order of the unit labels:
    h > m > s > ms > µs > ns, and the empty label below all of them. *)
Definition unit_rank (u : string) : nat :=
  if String.eqb u "h" then 6
  else if String.eqb u "m" then 5
  else if String.eqb u "s" then 4
  else if String.eqb u "ms" then 3
  else if String.eqb u "µs" then 2
  else if String.eqb u "ns" then 1
  else 0.

(** Every operating-system step of [windowsTimer.Run] other than the
    child's own exit succeeds. *)
Definition os_steps_ok (l : launch) : bool :=
  match start_err l, createJob l, openProcess l, assign_err l,
        snd (getMainThreadOfPID l (Pid l)), query_err l with
  | None, inl _, inl _, None, None, None => true
  | _, _, _, _, _, _ => false
  end.

(** A launch on which every system call succeeds and the child runs to
    completion with exit status [code]. *)
Definition clean_launch (real user kernel code : Z) : launch :=
  mkLaunch None 4242 (inl 7) (inl 8) None
    (inl [mkThreadEntry 4 1 (inl 5); mkThreadEntry 4242 2 (inl 9)])
    (Exited code) real None user kernel.

Definition fresh_world : world windowsTimer :=
  mkWorld 0%nat (mkWindowsTimer 0 0 0 0) [].

(** The command line [a b]. *)
Definition sample_cmd : gostring := [97; 32; 98].

(** A launch that [windowsTimer.Run] completes without error. *)
Definition good (l : launch) : Prop :=
  os_steps_ok l = true /\ wait_res l = Exited 0.

(** The real times of the [n] launches from the [k]-th on. *)
Definition samples_of (env : nat -> launch) (k n : nat) : list Z :=
  map (fun j => elapsed (env j)) (seq k n).

(** The running mean after folding [updateRunningMean] over [samples],
    starting from mean [est] over [count] earlier samples. *)
Fixpoint running_means (est count : Z) (samples : list Z) : exec Z :=
  match samples with
  | [] => Done est
  | x :: xs =>
      est' <- updateRunningMean est count x ;;
      running_means est' (add count 1) xs
  end.

(** The ETA values that the measuring loop hands to the progress line for
    [samples], as the source computes them: the running mean after the
    sample at index [count], times [runs - count]. *)
Fixpoint etas (runs : Z) (est count : Z) (samples : list Z) : list Z :=
  match samples with
  | [] => []
  | x :: xs =>
      match updateRunningMean est count x with
      | Done est' =>
          mul est' (sub runs count) :: etas runs est' (add count 1) xs
      | Panicked _ => []
      end
  end.

(** The exact sum of a list of integers. *)
Definition sumZ (l : list Z) : Z := fold_right Z.add 0 l.

(** Least and greatest element of a list, with the loop's initial values
    for the empty list. *)
Definition minimum (l : list Z) : Z := fold_right Z.min MaxInt64 l.
Definition maximum (l : list Z) : Z := fold_right Z.max MinInt64 l.

(** An environment in which every launch succeeds with exit status 0 and
    the [k]-th launch takes [10 * (k + 1)] nanoseconds. *)
Definition steady_env (k : nat) : launch :=
  clean_launch (10 * (Z.of_nat k + 1)) 3 4 0.

(** An environment in which every run takes [2^62] nanoseconds. *)
Definition huge_env (k : nat) : launch := clean_launch (2 ^ 62) 3 4 0.

(** An environment in which the [k]-th run takes [k] nanoseconds. *)
Definition ramp_env (k : nat) : launch := clean_launch (Z.of_nat k) 3 4 0.

(** The ETA values as the specification words them: the running mean
    after each sample, times [runCount - completedCount], where
    [completedCount] counts the iterations finished so far, the current
    one included. *)
Fixpoint claimed_etas (runCount : Z) (est completedBefore : Z)
  (samples : list Z) : list Z :=
  match samples with
  | [] => []
  | x :: xs =>
      match updateRunningMean est completedBefore x with
      | Done est' =>
          let completedCount := add completedBefore 1 in
          mul est' (sub runCount completedCount)
            :: claimed_etas runCount est' completedCount xs
      | Panicked _ => []
      end
  end.

(** The summary line of [res] against the baseline, spelled out as the
    specification words it: [ratio = mean / baselineMean] and the spread
    [|(mean + stdev) / (baselineMean + baselineStdev) - ratio|
     + |ratio - (mean - stdev) / (baselineMean - baselineStdev)|],
    each deviation being the one of the result whose mean it is added to
    or subtracted from. *)
Definition expected_line (baseline res : benchmarkResult) : summary_line :=
  let mean := float64_of_int64 (r_mean res) in
  let baselineMean := float64_of_int64 (r_mean baseline) in
  let ratio := PrimFloat.div mean baselineMean in
  TimesFaster ratio
    (PrimFloat.add
       (PrimFloat.abs
          (PrimFloat.sub
             (PrimFloat.div (PrimFloat.add mean (r_stdev res))
                (PrimFloat.add baselineMean (r_stdev baseline)))
             ratio))
       (PrimFloat.abs
          (PrimFloat.sub ratio
             (PrimFloat.div (PrimFloat.sub mean (r_stdev res))
                (PrimFloat.sub baselineMean (r_stdev baseline))))))
    (r_cmd res).

(** A result with the given command, mean and deviation, shown in
    nanoseconds. *)
Definition plain_result (cmd : gostring) (mean : Z) (sd : float64)
  : benchmarkResult :=
  mkBenchmarkResult cmd mean sd mean mean 1%float "ns"
    0 0%float EmptyString 0 0%float EmptyString.

Definition mean_le (a b : benchmarkResult) : Prop := r_mean a <= r_mean b.

Definition has_mean (m : Z) (r : benchmarkResult) : bool := r_mean r =? m.

(* ================================================================== *)
(** ** Vocabulary of the further properties *)

(** A rune that is neither a quote nor a blank. *)
Definition is_ordinary (ch : rune) : bool :=
  negb (is_quote ch) && negb (is_blank ch).

(** Everything the tokenizer has written so far, parts and builder. *)
Definition emitted (st : tokenizer) : gostring :=
  List.concat (cmdParts st) ++ b st.

(** The exact sum of the squared deviations from [mean]. *)
Definition sum_sq (values : list Z) (mean : Z) : Z :=
  fold_right (fun v acc => (v - mean) * (v - mean) + acc) 0 values.

(** The process operations and Windows API calls of [windowsTimer.Run]
    that create, use or release a handle or act on the child, in the
    order in which they happen ([Thread32First] and [Thread32Next] only
    read the snapshot and are left out). *)
Inductive call : Set :=
| CallStart
| CallCreateJobObject
| CallOpenProcess (pid : Z)
| CallAssignProcessToJobObject (job hProcess : handle)
| CallCloseHandle (h : handle)
| CallCreateToolhelp32Snapshot
| CallOpenThread (tid : Z)
| CallResumeThread (h : handle)
| CallWait
| CallQueryInformationJobObject (job : handle)
| CallTerminateJobObject (job : handle).

(** The calls of the loop of [getMainThreadOfPID]: [OpenThread] on the
    first entry owned by [pid]. *)
Fixpoint getMainThreadOfPID_scan_calls (entries : list ThreadEntry32)
  (pid : Z) : list call :=
  match entries with
  | [] => []
  | threadEntry :: rest =>
      if OwnerProcessID threadEntry =? pid
      then [CallOpenThread (ThreadID threadEntry)]
      else getMainThreadOfPID_scan_calls rest pid
  end.

(** The calls of [getMainThreadOfPID]; [hSnapshot] is the handle that
    [CreateToolhelp32Snapshot] returns when it succeeds, closed by the
    deferred [CloseHandle]. *)
Definition getMainThreadOfPID_calls (l : launch) (hSnapshot : handle)
  (pid : Z) : list call :=
  match snapshot l with
  | inr _ => [CallCreateToolhelp32Snapshot]
  | inl entries =>
      CallCreateToolhelp32Snapshot
        :: getMainThreadOfPID_scan_calls entries pid
        ++ [CallCloseHandle hSnapshot]
  end.

(** The calls of [terminateJobObject]; [terminate_err] is the outcome of
    [windows.TerminateJobObject]. *)
Definition terminateJobObject_calls (job : handle)
  (terminate_err : option Z) : list call :=
  CallTerminateJobObject job
    :: match terminate_err with
       | Some _ => []
       | None => [CallCloseHandle job]
       end.

(** The calls of [windowsTimer.Run] on the launch [l], the deferred calls
    last and in reverse order of their [defer] statements. *)
Definition windowsTimer_Run_calls (l : launch) (hSnapshot : handle)
  (terminate_err : option Z) : list call :=
  CallStart ::
  match start_err l with
  | Some _ => []
  | None =>
  CallCreateJobObject ::
  match createJob l with
  | inr _ => []
  | inl job =>
  (CallOpenProcess (Pid l) ::
   match openProcess l with
   | inr _ => []
   | inl hProcess =>
   CallAssignProcessToJobObject job hProcess ::
   match assign_err l with
   | Some _ => []
   | None =>
   CallCloseHandle hProcess ::
   getMainThreadOfPID_calls l hSnapshot (Pid l) ++
   match getMainThreadOfPID l (Pid l) with
   | (_, Some _) => []
   | (hThread, None) =>
   CallResumeThread hThread :: CallWait ::
   match cmd_Wait (wait_res l) with
   | Some _ => []
   | None => [CallQueryInformationJobObject job]
   end ++ [CallCloseHandle hThread]
   end end end)
  ++ terminateJobObject_calls job terminate_err
  end end.

Definition is_terminate (c : call) : bool :=
  match c with
  | CallTerminateJobObject _ => true
  | _ => false
  end.

Definition is_resume_or_wait (c : call) : bool :=
  match c with
  | CallResumeThread _ | CallWait => true
  | _ => false
  end.

(** The job's user and kernel times, in 100 ns ticks, of the [n]
    launches from the [k]-th on. *)
Definition user_ticks_of (env : nat -> launch) (k n : nat) : list Z :=
  map (fun j => TotalUserTime (env j)) (seq k n).

Definition kernel_ticks_of (env : nat -> launch) (k n : nat) : list Z :=
  map (fun j => TotalKernelTime (env j)) (seq k n).

(** An environment whose launches succeed except the [bad]-th, whose
    child exits with status 1. *)
Definition failing_env (bad : nat) (k : nat) : launch :=
  clean_launch (10 * (Z.of_nat k + 1)) 3 4 (if Nat.eqb k bad then 1 else 0).

(* ================================================================== *)
(** ** The command loop of [main] *)

(** How [main] ends: it returns early when the setup command fails, and
    otherwise benchmarks every command and prints the summary. The lines
    printed for each single result are left out. *)
Inductive main_outcome : Set :=
| SetupFailed (err : error)
| Completed (results : list benchmarkResult) (errors : list error)
    (lines : list summary_line).

Section Main.

Context {T : Type} `{timer T}.
Variable env : nat -> launch.
Variable con : console.
Variables runs warmup : Z.

(** The loop of [main] over the commands: [results] collects the results
    of the benchmarks that succeeded, [errors] the errors printed for the
    others. *)
Fixpoint benchmark_all (cmds : list gostring)
  (results : list benchmarkResult) (errors : list error) (w : world T)
  : exec (world T * list benchmarkResult * list error) :=
  match cmds with
  | [] => Done (w, results, errors)
  | cmd :: rest =>
      ran <- runBenchmark env con runs warmup cmd w ;;
      match ran with
      | (w', Err err) => benchmark_all rest results (errors ++ [err]) w'
      | (w', Ok res) => benchmark_all rest (results ++ [res]) errors w'
      end
  end.

(** [main] after flag parsing: [setupCmd] is the [-setup] flag and [cmds]
    are the remaining arguments. *)
Definition main (setupCmd : gostring) (cmds : list gostring) (w : world T)
  : exec (world T * main_outcome) :=
  let after_setup :=
    match setupCmd with
    | [] => (w, None)
    | _ :: _ => runSetup env setupCmd w
    end in
  match snd after_setup with
  | Some err => Done (fst after_setup, SetupFailed err)
  | None =>
      done <- benchmark_all cmds [] [] (fst after_setup) ;;
      let '(w', results, errors) := done in
      Done (w', Completed results errors (summary results))
  end.

End Main.

(** [sub] is [l] with some elements removed. *)
Inductive Subseq {A : Type} : list A -> list A -> Prop :=
| Subseq_nil : Subseq [] []
| Subseq_skip (x : A) (sub l : list A) : Subseq sub l -> Subseq sub (x :: l)
| Subseq_keep (x : A) (sub l : list A) :
    Subseq sub l -> Subseq (x :: sub) (x :: l).

(** [int(x)] as an amd64 machine computes it: the value truncated
    towards zero, and the most negative [int64] for a NaN or a value that
    does not fit. *)
Definition trunc_float64 (x : float64) : Z :=
  match Prim2SF x with
  | S754_zero _ => 0
  | S754_finite s m e =>
      let magnitude :=
        if 0 <=? e then Z.pos m * 2 ^ e else Z.pos m / 2 ^ (- e) in
      let v := if s then - magnitude else magnitude in
      if (MinInt64 <=? v) && (v <=? MaxInt64) then v else MinInt64
  | _ => MinInt64
  end.

(** A terminal of 80 columns on which the text of every progress line
    takes 30 bytes. *)
Definition wide_console : console :=
  mkConsole (fun _ => 80) (fun _ _ => 30) trunc_float64.

(** Every progress line of a benchmark of [runs] runs can be drawn: for
    each index [i] of a measured run, whatever estimate and unit are
    shown and whenever the line is printed, [printProgressLine] builds
    its bar for the progress [float64(i+1)/float64(runs)]. *)
Definition can_draw (con : console) (runs : Z) : Prop :=
  forall (i : Z) (shown : float64) (u : string) (n : nat),
    0 <= i < runs ->
    exists bar,
      printProgressLine_bar (float_to_int con) (line_len con shown u)
        (PrimFloat.div (float64_of_int64 (i + 1)) (float64_of_int64 runs))
        (term_GetSize con n)
      = Drawn bar.

(** Standard output that is not a terminal: [term.GetSize] fails and the
    width is left at 0. *)
Definition piped_console : console :=
  mkConsole (fun _ => 0) (fun _ _ => 30) trunc_float64.

(* ================================================================== *)
(** * Properties *)

(** ** Arithmetic on [int64] *)

Lemma wrap64_small (z : Z) : in_range z -> wrap64 z = z.
Proof.
  unfold in_range, MinInt64, MaxInt64, wrap64; intros Hz.
  rewrite Z.mod_small; lia.
Qed.

Lemma wrap64_in_range (z : Z) : in_range (wrap64 z).
Proof.
  unfold in_range, MinInt64, MaxInt64, wrap64.
  pose proof (Z.mod_pos_bound (z + 2 ^ 63) (2 ^ 64) ltac:(lia)); lia.
Qed.

Lemma wrap64_add_idemp_l (a c : Z) : wrap64 (wrap64 a + c) = wrap64 (a + c).
Proof.
  unfold wrap64.
  replace ((a + 2 ^ 63) mod 2 ^ 64 - 2 ^ 63 + c + 2 ^ 63)
    with ((a + 2 ^ 63) mod 2 ^ 64 + c) by lia.
  rewrite Zplus_mod_idemp_l.
  replace (a + 2 ^ 63 + c) with (a + c + 2 ^ 63) by lia.
  reflexivity.
Qed.

Lemma quot_pos_iff (a d : Z) : 0 < d -> (0 < Z.quot a d <-> d <= a).
Proof.
  intros Hd; split; intros Hq.
  - destruct (Z.lt_ge_cases a d) as [Hlt | Hge]; [| exact Hge].
    destruct (Z.lt_ge_cases a 0) as [Hneg | Hpos].
    + pose proof (Z.quot_opp_l a d ltac:(lia)) as Ho.
      pose proof (Z.quot_pos (- a) d ltac:(lia) Hd). lia.
    + rewrite Z.quot_small in Hq by lia. lia.
  - rewrite Z.quot_div_nonneg by lia.
    apply Z.div_str_pos; lia.
Qed.

Lemma quot_in_range (a d : Z) : in_range a -> 0 < d -> in_range (Z.quot a d).
Proof.
  unfold in_range, MinInt64, MaxInt64; intros Ha Hd.
  destruct (Z.lt_ge_cases a 0) as [Hneg | Hpos].
  - pose proof (Z.quot_opp_l a d ltac:(lia)) as Ho.
    pose proof (Z.quot_pos (- a) d ltac:(lia) Hd).
    assert (Z.quot (- a) d <= - a).
    { rewrite Z.quot_div_nonneg by lia.
      apply Z.div_le_upper_bound; nia. }
    lia.
  - pose proof (Z.quot_pos a d Hpos Hd).
    assert (Z.quot a d <= a).
    { rewrite Z.quot_div_nonneg by lia.
      apply Z.div_le_upper_bound; nia. }
    lia.
Qed.

Lemma div64_pos (a d : Z) :
  in_range a -> 0 < d -> div64 a d = Done (Z.quot a d).
Proof.
  intros Ha Hd. unfold div64.
  destruct (Z.eqb_spec d 0) as [-> | _]; [lia |].
  rewrite wrap64_small by (apply quot_in_range; assumption).
  reflexivity.
Qed.

(* ================================================================== *)
(** ** The tokenizer *)

Lemma list2Cmdline_shape (cmd : gostring) :
  exists front last_part, list2Cmdline cmd = front ++ [last_part].
Proof.
  unfold list2Cmdline. eexists. eexists. reflexivity.
Qed.

Lemma list2Cmdline_cons (cmd : gostring) :
  exists name args, list2Cmdline cmd = name :: args.
Proof.
  destruct (list2Cmdline_shape cmd) as (front & last_part & Heq).
  rewrite Heq. destruct front as [| p front]; simpl; eauto.
Qed.

(** C10. For every input string [list2Cmdline] returns at least one part,
    the empty input gives the single empty part, and therefore [runSetup]
    and [runBenchmark] always take the branch after the
    ["empty command string"] test: for any timer, environment and flags
    they behave as their continuation on [name :: args]. *)
Theorem list2Cmdline_never_empty :
  forall (cmd : gostring),
    (1 <= List.length (list2Cmdline cmd))%nat /\
    list2Cmdline [] = [[]] /\
    forall (T : Type) (TM : timer T) (env : nat -> launch) (con : console)
         (runs warmup : Z)
           (w : world T),
      exists name args,
        list2Cmdline cmd = name :: args /\
        runBenchmark env con runs warmup cmd w
          = runBenchmark_parts env con runs warmup cmd name args w /\
        runSetup env cmd w
          = (mkWorld (S (launched w)) (processTimer w) (printed w),
             cmd_Run (env (launched w))).
Proof.
  intros cmd. split; [| split].
  - destruct (list2Cmdline_cons cmd) as (name & args & ->). simpl. lia.
  - reflexivity.
  - intros T TM env con runs warmup w.
    destruct (list2Cmdline_cons cmd) as (name & args & Heq).
    exists name, args. unfold runBenchmark, runSetup. rewrite Heq. auto.
Qed.

(* ================================================================== *)
(** ** Unit selection *)

Lemma denominators_positive : Forall (fun d => 0 < d) denominators.
Proof.
  unfold denominators, Hour, Minute, Second, Millisecond, Microsecond,
    Nanosecond.
  repeat constructor.
Qed.

(** The scan either falls through every remaining tier, or stops at the
    first one whose quotient is positive. *)
Lemma getMeasurementMetrics_from_spec (timing : Z) :
  in_range timing ->
  forall (ds : list Z) (i : nat),
    Forall (fun d => 0 < d) ds ->
    (i + List.length ds <= List.length units)%nat ->
    (Forall (fun d => Z.quot timing d <= 0) ds /\
     getMeasurementMetrics_from i ds timing = Done (0%float, EmptyString))
    \/
    (exists j d u,
        nth_error ds j = Some d /\
        nth_error units (i + j) = Some u /\
        getMeasurementMetrics_from i ds timing
          = Done (float64_of_int64 d, u) /\
        0 < Z.quot timing d /\
        forall j' d', (j' < j)%nat -> nth_error ds j' = Some d' ->
                      Z.quot timing d' <= 0).
Proof.
  intros Hr ds. induction ds as [| d ds IH]; intros i Hpos Hlen.
  - left. split; [constructor | reflexivity].
  - inversion Hpos as [| ? ? Hd Hds]; subst.
    simpl in Hlen. simpl getMeasurementMetrics_from.
    rewrite (div64_pos _ _ Hr Hd). simpl bind.
    destruct (Z.gtb_spec (Z.quot timing d) 0) as [Hq | Hq].
    + right. exists 0%nat, d.
      destruct (nth_error units i) as [u |] eqn:Hu.
      * exists u. rewrite Nat.add_0_r. repeat split; auto.
        intros j' d' Hj. lia.
      * apply nth_error_None in Hu. simpl in Hu. lia.
    + destruct (IH (S i) Hds ltac:(simpl; lia)) as [[Hall Hres] | Hex].
      * left. split; [constructor; assumption | exact Hres].
      * right. destruct Hex as (j & d0 & u & Hn & Hu & Hres & Hq0 & Hbefore).
        exists (S j), d0, u. repeat split; auto.
        -- rewrite Nat.add_succ_r. exact Hu.
        -- intros j' d' Hj Hn'. destruct j' as [| j'].
           ++ simpl in Hn'. inversion Hn'; subst. exact Hq.
           ++ simpl in Hn'. apply (Hbefore j' d'); [lia | exact Hn'].
Qed.

(** C6 as written fails on a negative duration: every quotient is then
    zero or negative, so the sentinel is returned although the input is
    not zero. *)
Lemma getMeasurementMetrics_sentinel_negative :
  in_range (-1) /\ -1 <> 0 /\
  getMeasurementMetrics (-1) = Done (0%float, EmptyString).
Proof.
  split; [unfold in_range, MinInt64, MaxInt64; lia |].
  split; [lia | reflexivity].
Qed.

(** C6 (amended). For every [int64] duration [getMeasurementMetrics] does
    not panic; it scans the tiers from hours down to nanoseconds and
    returns the first tier whose quotient is positive; it returns the
    zero-divisor, empty-label sentinel exactly when the input is zero or
    negative. *)
Theorem getMeasurementMetrics_first_positive_tier :
  forall (timing : Z),
    in_range timing ->
    (timing <= 0 /\
     getMeasurementMetrics timing = Done (0%float, EmptyString))
    \/
    (0 < timing /\
     exists i d u,
       nth_error denominators i = Some d /\
       nth_error units i = Some u /\
       d <> 0 /\
       getMeasurementMetrics timing = Done (float64_of_int64 d, u) /\
       0 < Z.quot timing d /\
       forall j d', (j < i)%nat -> nth_error denominators j = Some d' ->
                    Z.quot timing d' <= 0).
Proof.
  intros timing Hr.
  destruct (getMeasurementMetrics_from_spec timing Hr denominators 0
              denominators_positive ltac:(simpl; lia))
    as [[Hall Hres] | (j & d & u & Hn & Hu & Hres & Hq & Hbefore)].
  - left. split; [| exact Hres].
    assert (Hns : Z.quot timing Nanosecond <= 0).
    { rewrite Forall_forall in Hall. apply Hall.
      unfold denominators. simpl. tauto. }
    unfold Nanosecond in Hns. rewrite Z.quot_1_r in Hns. exact Hns.
  - right.
    assert (Hd : 0 < d).
    { pose proof denominators_positive as Hp. rewrite Forall_forall in Hp.
      apply Hp. eapply nth_error_In; eassumption. }
    split.
    + apply (quot_pos_iff timing d Hd) in Hq. lia.
    + exists j, d, u.
      split; [exact Hn |]. split; [exact Hu |]. split; [lia |].
      split; [exact Hres |]. split; [exact Hq | exact Hbefore].
Qed.

Lemma getMeasurementMetrics_first_positive_tier_witness :
  (0 < 1500 /\
   exists i d u,
     nth_error denominators i = Some d /\
     nth_error units i = Some u /\
     d <> 0 /\
     getMeasurementMetrics 1500 = Done (float64_of_int64 d, u) /\
     0 < Z.quot 1500 d /\
     forall j d', (j < i)%nat -> nth_error denominators j = Some d' ->
                  Z.quot 1500 d' <= 0).
Proof.
  destruct (getMeasurementMetrics_first_positive_tier 1500
              ltac:(unfold in_range, MinInt64, MaxInt64; lia))
    as [[Hle _] | Hpos].
  - exfalso. lia.
  - exact Hpos.
Defined.


Lemma getMeasurementMetrics_from_cons (timing d : Z) (ds : list Z) (i : nat) :
  in_range timing -> 0 < d ->
  getMeasurementMetrics_from i (d :: ds) timing =
    if d <=? timing then
      match nth_error units i with
      | Some u => Done (float64_of_int64 d, u)
      | None => Panicked IndexOutOfRange
      end
    else getMeasurementMetrics_from (S i) ds timing.
Proof.
  intros Hr Hd. cbn [getMeasurementMetrics_from].
  rewrite (div64_pos _ _ Hr Hd). cbn [bind].
  pose proof (quot_pos_iff timing d Hd) as Hq.
  destruct (Z.gtb_spec (Z.quot timing d) 0), (Z.leb_spec d timing);
    try reflexivity; lia.
Qed.

(** The scan written as a cascade of thresholds. *)
Lemma getMeasurementMetrics_thresholds (timing : Z) :
  in_range timing ->
  getMeasurementMetrics timing =
    if Hour <=? timing then Done (float64_of_int64 Hour, "h"%string)
    else if Minute <=? timing then Done (float64_of_int64 Minute, "m"%string)
    else if Second <=? timing then Done (float64_of_int64 Second, "s"%string)
    else if Millisecond <=? timing
         then Done (float64_of_int64 Millisecond, "ms"%string)
    else if Microsecond <=? timing
         then Done (float64_of_int64 Microsecond, "µs"%string)
    else if Nanosecond <=? timing
         then Done (float64_of_int64 Nanosecond, "ns"%string)
    else Done (0%float, EmptyString).
Proof.
  intros Hr. unfold getMeasurementMetrics, denominators.
  rewrite !getMeasurementMetrics_from_cons
    by (try assumption;
        unfold Hour, Minute, Second, Millisecond, Microsecond, Nanosecond;
        lia).
  reflexivity.
Qed.

(** [getMeasurementMetrics] never panics on an [int64]. *)
Lemma getMeasurementMetrics_total (timing : Z) :
  in_range timing -> exists m, getMeasurementMetrics timing = Done m.
Proof.
  intros Hr. rewrite (getMeasurementMetrics_thresholds _ Hr).
  repeat match goal with
         | |- context [if ?c then _ else _] => destruct c; [eauto |]
         end.
  eauto.
Qed.

(** C9. Unit selection is monotonic: for [int64] durations [a <= b], the
    unit chosen for [b] is never of smaller magnitude than the unit chosen
    for [a], both as a label (h > m > s > ms > µs > ns) and as a
    divisor. *)
Theorem getMeasurementMetrics_monotone :
  forall (a b : Z),
    in_range a -> in_range b -> a <= b ->
    exists da ua db ub,
      getMeasurementMetrics a = Done (da, ua) /\
      getMeasurementMetrics b = Done (db, ub) /\
      (unit_rank ua <= unit_rank ub)%nat /\
      PrimFloat.leb da db = true.
Proof.
  intros a b Ha Hb Hab.
  rewrite (getMeasurementMetrics_thresholds a Ha).
  rewrite (getMeasurementMetrics_thresholds b Hb).
  unfold Hour, Minute, Second, Millisecond, Microsecond, Nanosecond.
  repeat match goal with
         | |- context [?x <=? a] => destruct (Z.leb_spec x a)
         end;
  repeat match goal with
         | |- context [?x <=? b] => destruct (Z.leb_spec x b)
         end;
  try (exfalso; lia);
  do 4 eexists; (split; [reflexivity |]); (split; [reflexivity |]);
  split; vm_compute; solve [reflexivity | lia | intro; discriminate].
Qed.

Lemma getMeasurementMetrics_monotone_witness :
  exists da ua db ub,
    getMeasurementMetrics 999 = Done (da, ua) /\
    getMeasurementMetrics 2000000 = Done (db, ub) /\
    (unit_rank ua <= unit_rank ub)%nat /\
    PrimFloat.leb da db = true.
Proof.
  apply (getMeasurementMetrics_monotone 999 2000000);
    unfold in_range, MinInt64, MaxInt64; lia.
Defined.

(* ================================================================== *)
(** ** The Windows timer: when [Run] fails *)


Lemma cmd_Wait_None (r : wait_result) : cmd_Wait r = None <-> r = Exited 0.
Proof.
  destruct r as [code | errno]; simpl.
  - destruct (Z.eqb_spec code 0) as [-> | Hne]; split; intros Heq;
      try reflexivity; try discriminate.
    inversion Heq; contradiction.
  - split; discriminate.
Qed.

(** C1 as written fails: a child that is launched, runs to completion
    and exits with status 1 makes [Run] return an error, and
    [runBenchmark] gives up without a result. *)
Lemma windowsTimer_Run_nonzero_exit_is_error :
  os_steps_ok (clean_launch 10 3 4 1) = true /\
  wait_res (clean_launch 10 3 4 1) = Exited 1 /\
  snd (windowsTimer_Run (clean_launch 10 3 4 1) [97] [[98]]
         (mkWindowsTimer 0 0 0 0)) = Some (ErrExit 1) /\
  exists w',
    runBenchmark (fun _ => clean_launch 10 3 4 1) wide_console 1 0
      sample_cmd fresh_world
      = Done (w', Err (ErrExit 1)).
Proof.
  repeat split. eexists. vm_compute. reflexivity.
Qed.

Lemma windowsTimer_Run_ok_iff (l : launch) (name : gostring)
  (arg : list gostring) (w : windowsTimer) :
  snd (windowsTimer_Run l name arg w) = None <->
  os_steps_ok l = true /\ wait_res l = Exited 0.
Proof.
  unfold windowsTimer_Run, os_steps_ok.
  destruct (start_err l); [simpl; intuition discriminate |].
  destruct (createJob l); [| simpl; intuition discriminate].
  destruct (openProcess l); [| simpl; intuition discriminate].
  destruct (assign_err l); [simpl; intuition discriminate |].
  destruct (getMainThreadOfPID l (Pid l)) as [hThread [err |]];
    [simpl; intuition discriminate |].
  cbn [snd].
  pose proof (cmd_Wait_None (wait_res l)) as Hw.
  destruct (cmd_Wait (wait_res l)) as [err |].
  - simpl. split; [discriminate |]. intros [_ Hz].
    apply Hw in Hz. discriminate.
  - destruct (query_err l); simpl; split; try discriminate; try tauto.
    intros [Hf _]; discriminate.
Qed.

Lemma windowsTimer_Run_exit_error (l : launch) (name : gostring)
  (arg : list gostring) (w : windowsTimer) (code : Z) :
  os_steps_ok l = true -> wait_res l = Exited code -> code <> 0 ->
  windowsTimer_Run l name arg w = (w, Some (ErrExit code)).
Proof.
  unfold windowsTimer_Run, os_steps_ok. intros Hok Hw Hc.
  destruct (start_err l); [discriminate |].
  destruct (createJob l); [| discriminate].
  destruct (openProcess l); [| discriminate].
  destruct (assign_err l); [discriminate |].
  destruct (getMainThreadOfPID l (Pid l)) as [hThread [err |]];
    [discriminate |].
  rewrite Hw. simpl. destruct (Z.eqb_spec code 0); [contradiction |].
  reflexivity.
Qed.

(** An error in the first measured iteration ends [runBenchmark]. *)
Lemma runBenchmark_first_run_error (T : Type) (TM : timer T)
  (env : nat -> launch) (con : console) (runs : Z) (cmd : gostring)
  (w : world T)
  (err : error) :
  1 <= runs ->
  (forall name args,
      snd (Run (env (launched w)) name args (Reset (processTimer w)))
      = Some err) ->
  exists w', runBenchmark env con runs 0 cmd w = Done (w', Err err).
Proof.
  intros Hruns Herr. unfold runBenchmark.
  destruct (list2Cmdline_cons cmd) as (name & args & ->).
  unfold runBenchmark_parts. cbn [Z.to_nat warmup_loop fst snd].
  unfold make_slice. destruct (Z.ltb_spec runs 0) as [Hneg | _]; [lia |].
  cbn [bind].
  destruct (Z.to_nat runs) as [| n] eqn:Hn; [lia |].
  cbn [measure_loop]. unfold measure_body.
  cbn [launched processTimer printed].
  rewrite (Herr name args). cbn [bind]. eexists. reflexivity.
Qed.

(** C1 (amended). [windowsTimer.Run] returns no error exactly when every
    operating-system step succeeds and the child exits with status zero.
    A child that is launched, runs to completion and exits with a non-zero
    status makes [Run] return the exit error, the timer records nothing
    for that run, and [runBenchmark] returns that error instead of a
    result. *)
Theorem windowsTimer_Run_error_iff :
  forall (l : launch) (name : gostring) (arg : list gostring)
         (w : windowsTimer),
    (snd (windowsTimer_Run l name arg w) = None <->
     os_steps_ok l = true /\ wait_res l = Exited 0) /\
    (forall code,
        os_steps_ok l = true -> wait_res l = Exited code -> code <> 0 ->
        windowsTimer_Run l name arg w = (w, Some (ErrExit code)) /\
        forall (env : nat -> launch) (con : console) (runs : Z) (cmd : gostring)
               (wd : world windowsTimer),
          1 <= runs -> env (launched wd) = l ->
          exists wd',
            runBenchmark env con runs 0 cmd wd
            = Done (wd', Err (ErrExit code))).
Proof.
  intros l name arg w. split; [apply windowsTimer_Run_ok_iff |].
  intros code Hok Hw Hc. split.
  - apply windowsTimer_Run_exit_error; assumption.
  - intros env con runs cmd wd Hruns Henv.
    apply runBenchmark_first_run_error; [exact Hruns |].
    intros name' args'. rewrite Henv. cbn [Run windowsTimer_timer].
    rewrite (windowsTimer_Run_exit_error l name' args' _ code Hok Hw Hc).
    reflexivity.
Qed.

Lemma windowsTimer_Run_error_iff_witness :
  windowsTimer_Run (clean_launch 10 3 4 2) [97] [] (mkWindowsTimer 0 0 0 0)
    = (mkWindowsTimer 0 0 0 0, Some (ErrExit 2)) /\
  snd (windowsTimer_Run (clean_launch 10 3 4 0) [97] []
         (mkWindowsTimer 0 0 0 0)) = None.
Proof.
  split.
  - apply (proj2 (windowsTimer_Run_error_iff (clean_launch 10 3 4 2) [97] []
                    (mkWindowsTimer 0 0 0 0)) 2);
      [reflexivity | reflexivity | lia].
  - apply (proj1 (windowsTimer_Run_error_iff (clean_launch 10 3 4 0) [97] []
                    (mkWindowsTimer 0 0 0 0))).
    split; reflexivity.
Defined.

(* ================================================================== *)
(** ** The measuring loop on the Windows timer *)

Lemma windowsTimer_Run_good (l : launch) (name : gostring)
  (arg : list gostring) (w : windowsTimer) :
  good l ->
  windowsTimer_Run l name arg w =
    (mkWindowsTimer (TotalUserTime l) (TotalKernelTime l) (elapsed l)
       (jobObject w), None).
Proof.
  unfold good, windowsTimer_Run, os_steps_ok. intros [Hok Hw].
  destruct (start_err l); [discriminate |].
  destruct (createJob l); [| discriminate].
  destruct (openProcess l); [| discriminate].
  destruct (assign_err l); [discriminate |].
  destruct (getMainThreadOfPID l (Pid l)) as [hThread [err |]];
    [discriminate |].
  rewrite Hw. cbn [cmd_Wait Z.eqb].
  destruct (query_err l); [discriminate |]. reflexivity.
Qed.

Lemma update_middle (front : list Z) (old v : Z) (back : list Z) :
  update (front ++ old :: back) (List.length front) v = front ++ v :: back.
Proof.
  induction front as [| x front IH]; simpl; [reflexivity |].
  rewrite IH. reflexivity.
Qed.

Lemma nth_middle_Z (front : list Z) (v : Z) (back : list Z) :
  nth (List.length front) (front ++ v :: back) 0 = v.
Proof.
  induction front as [| x front IH]; simpl; [reflexivity | exact IH].
Qed.

Lemma add_succ_index (i : Z) : 0 <= i < MaxInt64 -> add i 1 = i + 1.
Proof.
  intros Hi. unfold add. apply wrap64_small.
  unfold in_range, MinInt64, MaxInt64 in *. lia.
Qed.

Lemma updateRunningMean_done (est i x : Z) :
  0 <= i < MaxInt64 ->
  updateRunningMean est i x
  = Done (wrap64 (Z.quot (add (mul est i) x) (i + 1))).
Proof.
  intros Hi. unfold updateRunningMean, div64.
  rewrite (add_succ_index i Hi).
  destruct (Z.eqb_spec (i + 1) 0); [lia | reflexivity].
Qed.

(** Rewrites the call of [printProgressLine] at index [i] with the bar
    that [can_draw] provides. *)
Ltac draw_line Hdraw i Hi :=
  cbn [shown_estimate shown_unit fraction];
  match goal with
  | |- context [printProgressLine_bar _ (line_len _ ?s ?u) _
                  (term_GetSize _ ?n)] =>
      let bar := fresh "bar" in
      let Hbar := fresh "Hbar" in
      destruct (Hdraw i s u n Hi) as [bar Hbar]; rewrite Hbar
  end.

Section WindowsLoop.

Variable env : nat -> launch.
Variable con : console.
Variables runs : Z.
Variables (name : gostring) (args : list gostring).

(** One iteration on a launch that succeeds. *)
Lemma measure_body_good (i : Z) (m : measuring) (w : world windowsTimer)
  (front back : list Z) (old : Z) :
  good (env (launched w)) ->
  elapsedRuns m = front ++ old :: back ->
  i = Z.of_nat (List.length front) ->
  i < MaxInt64 ->
  can_draw con runs ->
  i < runs ->
  exists m' w' line,
    measure_body env con runs name args i m w = Done (m', w', None) /\
    elapsedRuns m' = front ++ elapsed (env (launched w)) :: back /\
    updateRunningMean (currentEstimate m) i (elapsed (env (launched w)))
      = Done (currentEstimate m') /\
    launched w' = S (launched w) /\
    printed w' = printed w ++ [line] /\
    eta line = mul (currentEstimate m') (sub runs i).
Proof.
  intros Hgood Hruns Hi Hmax Hdraw Hlt.
  assert (Hidx : 0 <= i < MaxInt64) by lia.
  assert (Hir : 0 <= i < runs) by lia.
  unfold measure_body. cbn [Run Reset GetRealTime windowsTimer_timer].
  rewrite (windowsTimer_Run_good _ _ _ _ Hgood). cbn [fst snd].
  unfold windowsTimer_GetRealTime. cbn [realTime].
  unfold slice_set, slice_get. rewrite Hruns.
  assert (Hin : (0 <=? i) &&
                (i <? Z.of_nat (List.length (front ++ old :: back))) = true).
  { rewrite length_app. cbn [List.length].
    apply andb_true_iff. split; [apply Z.leb_le | apply Z.ltb_lt]; lia. }
  rewrite Hin. cbn [bind].
  replace (Z.to_nat i) with (List.length front) by lia.
  rewrite update_middle.
  assert (Hin' : (0 <=? i) &&
    (i <? Z.of_nat
            (List.length (front ++ elapsed (env (launched w)) :: back)))
                 = true).
  { rewrite length_app. cbn [List.length].
    apply andb_true_iff. split; [apply Z.leb_le | apply Z.ltb_lt]; lia. }
  rewrite Hin'. cbn [bind]. rewrite nth_middle_Z.
  rewrite (updateRunningMean_done _ _ _ Hidx). cbn [bind].
  destruct (getMeasurementMetrics_total
              (wrap64 (Z.quot
                 (add (mul (currentEstimate m) i)
                      (elapsed (env (launched w)))) (i + 1)))
              (wrap64_in_range _)) as [metrics Hmet].
  rewrite Hmet. cbn [bind].
  rewrite (add_succ_index i Hidx). draw_line Hdraw i Hir.
  do 3 eexists. split; [reflexivity |].
  cbn [elapsedRuns currentEstimate launched printed eta].
  repeat split; reflexivity.
Qed.

(** The whole loop when each of its [n] launches succeeds. *)
Lemma measure_loop_good (n : nat) :
  forall (front : list Z) (i : Z) (m : measuring) (w : world windowsTimer),
    (forall j, (j < n)%nat -> good (env (launched w + j))) ->
    elapsedRuns m = front ++ repeat 0 n ->
    i = Z.of_nat (List.length front) ->
    i + Z.of_nat n <= MaxInt64 ->
    can_draw con runs ->
    i + Z.of_nat n <= runs ->
    exists m' w',
      measure_loop env con runs name args n i m w = Done (m', w', None) /\
      elapsedRuns m' = front ++ samples_of env (launched w) n /\
      running_means (currentEstimate m) i (samples_of env (launched w) n)
        = Done (currentEstimate m') /\
      launched w' = (launched w + n)%nat /\
      map eta (printed w') =
        map eta (printed w) ++
        etas runs (currentEstimate m) i (samples_of env (launched w) n).
Proof.
  induction n as [| n IH];
    intros front i m w Hgood Hruns Hi Hmax Hdraw Hupto.
  - exists m, w. cbn [measure_loop samples_of seq map running_means etas].
    rewrite !app_nil_r. rewrite Nat.add_0_r.
    cbn [repeat] in Hruns. rewrite app_nil_r in Hruns. auto.
  - cbn [repeat] in Hruns.
    assert (Hg0 : good (env (launched w))).
    { specialize (Hgood 0%nat ltac:(lia)). rewrite Nat.add_0_r in Hgood.
      exact Hgood. }
    destruct (measure_body_good i m w front (repeat 0 n) 0 Hg0 Hruns Hi
                ltac:(lia) Hdraw ltac:(lia))
      as (m1 & w1 & line & Hbody & Hruns1 & Hmean1 & Hl1 & Hp1 & Heta1).
    assert (Hidx : 0 <= i < MaxInt64) by lia.
    destruct (IH (front ++ [elapsed (env (launched w))]) (add i 1) m1 w1)
      as (m' & w' & Hloop & Hruns' & Hmean' & Hl' & Hp').
    + intros j Hj. rewrite Hl1.
      replace (S (launched w) + j)%nat with (launched w + S j)%nat by lia.
      apply Hgood. lia.
    + rewrite Hruns1, <- app_assoc. reflexivity.
    + rewrite (add_succ_index i Hidx), length_app. cbn [List.length]. lia.
    + rewrite (add_succ_index i Hidx). lia.
    + exact Hdraw.
    + rewrite (add_succ_index i Hidx). lia.
    + exists m', w'. cbn [measure_loop]. rewrite Hbody. cbn [bind].
      rewrite Hl1 in *.
      cbn [samples_of seq map running_means etas].
      fold (samples_of env (S (launched w)) n).
      rewrite Hmean1. cbn [bind].
      split; [exact Hloop |].
      split; [rewrite Hruns', <- app_assoc; reflexivity |].
      split; [exact Hmean' |].
      split; [lia |].
      rewrite Hp', Hp1, map_app, <- app_assoc. cbn [map app].
      rewrite Heta1. reflexivity.
Qed.

End WindowsLoop.

(* ================================================================== *)
(** ** Aggregation *)

Lemma fold_min_init (x a : Z) (l : list Z) :
  fold_right Z.min (Z.min x a) l = Z.min x (fold_right Z.min a l).
Proof.
  induction l as [| y l IH]; simpl; [reflexivity |].
  rewrite IH. lia.
Qed.

Lemma fold_max_init (x a : Z) (l : list Z) :
  fold_right Z.max (Z.max x a) l = Z.max x (fold_right Z.max a l).
Proof.
  induction l as [| y l IH]; simpl; [reflexivity |].
  rewrite IH. lia.
Qed.

Lemma aggregate_fold (l : list Z) :
  forall a b c,
    fold_left aggregate_step l (a, b, wrap64 c)
    = (fold_right Z.min a l, fold_right Z.max b l, wrap64 (c + sumZ l)).
Proof.
  induction l as [| x l IH]; intros a b c.
  - simpl. rewrite Z.add_0_r. reflexivity.
  - cbn [fold_left aggregate_step sumZ fold_right].
    unfold add. rewrite wrap64_add_idemp_l.
    replace (if x <? a then x else a) with (Z.min x a)
      by (destruct (Z.ltb_spec x a); lia).
    replace (if x >? b then x else b) with (Z.max x b)
      by (destruct (Z.gtb_spec x b); lia).
    rewrite IH, fold_min_init, fold_max_init.
    fold (sumZ l). rewrite Z.add_assoc. reflexivity.
Qed.

(** The aggregation loop computes the least and greatest sample and the
    wrapped sum. *)
Lemma aggregate_loop_spec (l : list Z) :
  aggregate_loop l = (minimum l, maximum l, wrap64 (sumZ l)).
Proof.
  unfold aggregate_loop.
  change 0 with (wrap64 0) at 1.
  rewrite aggregate_fold. reflexivity.
Qed.

Lemma minimum_le (l : list Z) (x : Z) : In x l -> minimum l <= x.
Proof.
  unfold minimum. induction l as [| y l IH]; simpl; [tauto |].
  intros [-> | Hin]; [lia |]. specialize (IH Hin). lia.
Qed.

Lemma maximum_ge (l : list Z) (x : Z) : In x l -> x <= maximum l.
Proof.
  unfold maximum. induction l as [| y l IH]; simpl; [tauto |].
  intros [-> | Hin]; [lia |]. specialize (IH Hin). lia.
Qed.

Lemma sumZ_bounds (l : list Z) (lo hi : Z) :
  (forall x, In x l -> lo <= x <= hi) ->
  Z.of_nat (List.length l) * lo <= sumZ l <= Z.of_nat (List.length l) * hi.
Proof.
  induction l as [| y l IH]; intros Hb.
  - simpl. lia.
  - cbn [sumZ fold_right List.length]. fold (sumZ l).
    pose proof (Hb y (or_introl eq_refl)).
    specialize (IH (fun x Hx => Hb x (or_intror Hx))). lia.
Qed.

Lemma quot_between (s n lo hi : Z) :
  0 < n -> n * lo <= s <= n * hi -> lo <= Z.quot s n <= hi.
Proof.
  intros Hn Hs.
  destruct (Z.lt_ge_cases s 0) as [Hneg | Hpos].
  - pose proof (Z.quot_opp_l s n ltac:(lia)) as Ho.
    rewrite Z.quot_div_nonneg in Ho by lia.
    assert (- hi <= - s / n) by (apply Z.div_le_lower_bound; lia).
    assert (- s / n <= - lo).
    { assert (- s / n < - lo + 1); [| lia].
      apply Z.div_lt_upper_bound; lia. }
    lia.
  - rewrite Z.quot_div_nonneg by lia.
    assert (lo <= s / n) by (apply Z.div_le_lower_bound; lia).
    assert (s / n < hi + 1) by (apply Z.div_lt_upper_bound; lia).
    lia.
Qed.

Lemma samples_of_length (env : nat -> launch) (k n : nat) :
  List.length (samples_of env k n) = n.
Proof.
  unfold samples_of. rewrite length_map, length_seq. reflexivity.
Qed.

(** What [runBenchmark] returns on the Windows timer when the warmup
    runs and all measured launches succeed. *)
Lemma runBenchmark_success (env : nat -> launch) (con : console)
  (runs warmup : Z) (cmd : gostring) (w : world windowsTimer) :
  1 <= runs <= MaxInt64 ->
  can_draw con runs ->
  snd (warmup_loop env (Z.to_nat warmup) (launched w)) = None ->
  (forall j, (j < Z.to_nat runs)%nat ->
     good (env (fst (warmup_loop env (Z.to_nat warmup) (launched w)) + j)%nat)) ->
  let samples :=
    samples_of env (fst (warmup_loop env (Z.to_nat warmup) (launched w)))
      (Z.to_nat runs) in
  exists w' r est,
    runBenchmark env con runs warmup cmd w = Done (w', Ok r) /\
    r_min r = minimum samples /\
    r_max r = maximum samples /\
    r_mean r = wrap64 (Z.quot (wrap64 (sumZ samples)) runs) /\
    r_stdev r = stdev samples (r_mean r) /\
    getMeasurementMetrics (r_mean r) = Done (r_denominator r, r_unit r) /\
    running_means 0 0 samples = Done est /\
    map eta (printed w') = map eta (printed w) ++ etas runs 0 0 samples.
Proof.
  intros Hruns Hdraw Hwarm Hgood samples. unfold runBenchmark.
  destruct (list2Cmdline_cons cmd) as (name & args & ->).
  unfold runBenchmark_parts. rewrite Hwarm.
  unfold make_slice. destruct (Z.ltb_spec runs 0) as [Hneg | _]; [lia |].
  cbn [bind].
  set (k := fst (warmup_loop env (Z.to_nat warmup) (launched w))) in *.
  destruct (measure_loop_good env con runs name args (Z.to_nat runs) [] 0
              (mkMeasuring 0 0 0 (repeat 0 (Z.to_nat runs)))
              (mkWorld k (processTimer w) (printed w)))
    as (m & w' & Hloop & Hel & Hmean & Hl & Hp).
  - exact Hgood.
  - reflexivity.
  - reflexivity.
  - lia.
  - exact Hdraw.
  - lia.
  - cbn [launched printed currentEstimate app] in *.
    rewrite Hloop. cbn [bind]. unfold aggregate.
    rewrite Hel. fold samples. rewrite aggregate_loop_spec. cbn [fst snd].
    unfold div64. destruct (Z.eqb_spec runs 0) as [Hz | _]; [lia |].
    cbn [bind].
    set (mean := wrap64 (Z.quot (wrap64 (sumZ samples)) runs)).
    destruct (getMeasurementMetrics_total mean (wrap64_in_range _))
      as [[d u] Hreal].
    destruct (getMeasurementMetrics_total
                (wrap64 (Z.quot (totalUserTime m) runs)) (wrap64_in_range _))
      as [user Huser].
    destruct (getMeasurementMetrics_total
                (wrap64 (Z.quot (totalKernelTime m) runs))
                (wrap64_in_range _))
      as [kernel Hkernel].
    rewrite Hreal, Huser, Hkernel. cbn [bind fst snd].
    do 3 eexists. split; [reflexivity |].
    cbn [r_min r_max r_mean r_stdev r_denominator r_unit].
    repeat split; try reflexivity; eassumption.
Qed.

(* ================================================================== *)
(** ** The emitted result *)

(** C2 as written fails when the sum of the samples leaves the [int64]
    range: two samples of [2^62] ns wrap the total to [-2^63], so the
    mean is [-2^62], below the minimum [2^62]. *)
Lemma runBenchmark_mean_below_min_on_overflow :
  exists w' r,
    runBenchmark huge_env wide_console 2 0 sample_cmd fresh_world
    = Done (w', Ok r) /\
    r_min r = 2 ^ 62 /\ r_mean r = - 2 ^ 62 /\ r_max r = 2 ^ 62 /\
    ~ (r_min r <= r_mean r <= r_max r).
Proof.
  do 2 eexists. split; [vm_compute; reflexivity |].
  cbn [r_min r_mean r_max]. repeat split; try reflexivity. lia.
Qed.

(** Discharges [can_draw wide_console runs] for a run count of at most
    five by evaluating the bar at each index. *)
Ltac draw_wide :=
  let i := fresh "i" in
  let Hi := fresh "Hi" in
  let Hcases := fresh "Hcases" in
  intros i ? ? ? Hi;
  assert (Hcases : i = 0 \/ i = 1 \/ i = 2 \/ i = 3 \/ i = 4) by lia;
  decompose [or] Hcases; subst i; try (exfalso; lia);
  eexists; vm_compute; reflexivity.

(** C2 (amended). When the warmup runs and the [runs >= 1] measured
    launches succeed, every progress line can be drawn, and the exact sum
    of the collected real-time samples fits in [int64], [runBenchmark]
    emits a result whose [min], [max] and [mean] are the least sample,
    the greatest sample and the truncated quotient of the sum of the same
    sample array by [runs], and [min <= mean <= max]. *)
Theorem runBenchmark_min_mean_max :
  forall (env : nat -> launch) (con : console) (runs warmup : Z)
         (cmd : gostring) (w : world windowsTimer),
    1 <= runs <= MaxInt64 ->
    can_draw con runs ->
    snd (warmup_loop env (Z.to_nat warmup) (launched w)) = None ->
    (forall j, (j < Z.to_nat runs)%nat ->
       good (env (fst (warmup_loop env (Z.to_nat warmup) (launched w))
                  + j)%nat)) ->
    let samples :=
      samples_of env (fst (warmup_loop env (Z.to_nat warmup) (launched w)))
        (Z.to_nat runs) in
    in_range (sumZ samples) ->
    exists w' r,
      runBenchmark env con runs warmup cmd w = Done (w', Ok r) /\
      samples <> [] /\
      r_min r = minimum samples /\
      r_max r = maximum samples /\
      r_mean r = Z.quot (sumZ samples) runs /\
      r_min r <= r_mean r <= r_max r.
Proof.
  intros env con runs warmup cmd w Hruns Hdraw Hwarm Hgood samples Hsum.
  destruct (runBenchmark_success env con runs warmup cmd w Hruns Hdraw Hwarm
              Hgood)
    as (w' & r & est & Hrun & Hmin & Hmax & Hmean & _).
  fold samples in Hmin, Hmax, Hmean.
  assert (Hlen : Z.of_nat (List.length samples) = runs).
  { unfold samples. rewrite samples_of_length. lia. }
  rewrite (wrap64_small _ Hsum) in Hmean.
  rewrite wrap64_small in Hmean by (apply quot_in_range; [exact Hsum | lia]).
  exists w', r. split; [exact Hrun |].
  split.
  { intros Hnil. rewrite Hnil in Hlen. simpl in Hlen. lia. }
  split; [exact Hmin |]. split; [exact Hmax |]. split; [exact Hmean |].
  rewrite Hmin, Hmax, Hmean.
  apply quot_between; [lia |].
  rewrite <- Hlen. apply sumZ_bounds.
  intros x Hx. split; [apply minimum_le | apply maximum_ge]; exact Hx.
Qed.

Lemma runBenchmark_min_mean_max_witness :
  exists w' r,
    runBenchmark steady_env wide_console 5 0 sample_cmd fresh_world
    = Done (w', Ok r) /\
    samples_of steady_env 0 5 <> [] /\
    r_min r = minimum (samples_of steady_env 0 5) /\
    r_max r = maximum (samples_of steady_env 0 5) /\
    r_mean r = Z.quot (sumZ (samples_of steady_env 0 5)) 5 /\
    r_min r <= r_mean r <= r_max r.
Proof.
  apply (runBenchmark_min_mean_max steady_env wide_console 5 0 sample_cmd
           fresh_world).
  - unfold MaxInt64. lia.
  - draw_wide.
  - reflexivity.
  - intros j Hj. split; reflexivity.
  - vm_compute. split; intros Hc; discriminate Hc.
Defined.

(** C3 as written fails: with one run the deviation is computed all the
    same, as the square root of [0/0], and the result carries a NaN that
    [main] then divides by the unit and prints. *)
Lemma runBenchmark_single_run_stdev_is_nan :
  exists w' r,
    runBenchmark steady_env wide_console 1 0 sample_cmd fresh_world
    = Done (w', Ok r) /\
    r_stdev r = stdev [10] 10 /\
    PrimFloat.is_nan (r_stdev r) = true /\
    PrimFloat.is_nan (PrimFloat.div (r_stdev r) (r_denominator r)) = true.
Proof.
  do 2 eexists. split; [vm_compute; reflexivity |].
  cbn [r_stdev r_denominator]. repeat split; vm_compute; reflexivity.
Qed.

(** On a single value equal to the mean, [stdev] divides zero by zero. *)
Lemma stdev_single_is_nan (x : Z) : stdev [x] x = PrimFloat.nan.
Proof.
  unfold stdev, stdev_numerator. cbn [fold_left List.length].
  unfold sub. rewrite Z.sub_diag. vm_compute. reflexivity.
Qed.

(** Dividing a NaN by the divisor of any tier, or by the sentinel, gives
    a NaN. *)
Lemma nan_over_metrics (timing : Z) (d : float64) (u : string) :
  in_range timing ->
  getMeasurementMetrics timing = Done (d, u) ->
  PrimFloat.is_nan (PrimFloat.div PrimFloat.nan d) = true.
Proof.
  intros Hr. rewrite (getMeasurementMetrics_thresholds timing Hr).
  repeat match goal with
         | |- context [if ?c then _ else _] => destruct c
         end;
  intros Heq; inversion Heq; subst; vm_compute; reflexivity.
Qed.

(** C3 (amended). With a run count of exactly 1 whose launch succeeds and
    whose progress line can be drawn, the emitted result has
    [min = max = mean], all equal to the single sample. The deviation is
    neither left unset nor zero: [runBenchmark] applies the [stdev]
    routine to the one-sample array, which for every sample evaluates the
    square root of [0/0], and stores the resulting NaN; the value that
    [main] prints, the deviation divided by the unit's divisor, is a NaN
    as well. *)
Theorem runBenchmark_single_run :
  forall (env : nat -> launch) (con : console) (warmup : Z) (cmd : gostring)
         (w : world windowsTimer),
    can_draw con 1 ->
    snd (warmup_loop env (Z.to_nat warmup) (launched w)) = None ->
    let k := fst (warmup_loop env (Z.to_nat warmup) (launched w)) in
    good (env k) ->
    in_range (elapsed (env k)) ->
    exists w' r,
      runBenchmark env con 1 warmup cmd w = Done (w', Ok r) /\
      r_min r = elapsed (env k) /\
      r_max r = elapsed (env k) /\
      r_mean r = elapsed (env k) /\
      r_stdev r = stdev [elapsed (env k)] (elapsed (env k)) /\
      PrimFloat.is_nan (r_stdev r) = true /\
      PrimFloat.eqb (r_stdev r) 0%float = false /\
      PrimFloat.is_nan (PrimFloat.div (r_stdev r) (r_denominator r)) = true.
Proof.
  intros env con warmup cmd w Hdraw Hwarm k Hgood Hx.
  destruct (runBenchmark_success env con 1 warmup cmd w
              ltac:(unfold MaxInt64; lia) Hdraw Hwarm)
    as (w' & r & est & Hrun & Hmin & Hmax & Hmean & Hsd & Hmet & _).
  { intros j Hj. replace j with 0%nat by (simpl in Hj; lia).
    rewrite Nat.add_0_r. exact Hgood. }
  fold k in Hmin, Hmax, Hmean, Hsd.
  change (samples_of env k (Z.to_nat 1)) with [elapsed (env k)] in *.
  unfold minimum in Hmin. unfold maximum in Hmax.
  cbn [fold_right sumZ] in Hmin, Hmax, Hmean.
  rewrite Z.add_0_r, (wrap64_small _ Hx), Z.quot_1_r, (wrap64_small _ Hx)
    in Hmean.
  rewrite Hmean in Hsd, Hmet.
  assert (Hnan : r_stdev r = PrimFloat.nan).
  { rewrite Hsd. apply stdev_single_is_nan. }
  pose proof (nan_over_metrics _ _ _ Hx Hmet) as Hshown.
  unfold in_range in Hx.
  exists w', r. split; [exact Hrun |].
  split; [lia |]. split; [lia |]. split; [exact Hmean |].
  split; [exact Hsd |].
  rewrite Hnan. split; [reflexivity |]. split; [reflexivity | exact Hshown].
Qed.

Lemma runBenchmark_single_run_witness :
  exists w' r,
    runBenchmark steady_env wide_console 1 0 sample_cmd fresh_world
    = Done (w', Ok r) /\
    r_min r = 10 /\ r_max r = 10 /\ r_mean r = 10 /\
    r_stdev r = stdev [10] 10 /\
    PrimFloat.is_nan (r_stdev r) = true /\
    PrimFloat.eqb (r_stdev r) 0%float = false /\
    PrimFloat.is_nan (PrimFloat.div (r_stdev r) (r_denominator r)) = true.
Proof.
  apply (runBenchmark_single_run steady_env wide_console 0 sample_cmd
           fresh_world).
  - draw_wide.
  - reflexivity.
  - split; reflexivity.
  - vm_compute. split; intros Hc; discriminate Hc.
Defined.

(** C4 (what the code does). With [runs = 0] and warmup runs that
    succeed, [runBenchmark] executes no measured iteration and then panics
    with an integer division by zero while building the result; it neither
    returns an error value nor a result. *)
Theorem runBenchmark_zero_runs_panics :
  forall (T : Type) (TM : timer T) (env : nat -> launch) (con : console)
         (warmup : Z)
         (cmd : gostring) (w : world T),
    snd (warmup_loop env (Z.to_nat warmup) (launched w)) = None ->
    runBenchmark env con 0 warmup cmd w = Panicked DivideByZero.
Proof.
  intros T TM env con warmup cmd w Hwarm. unfold runBenchmark.
  destruct (list2Cmdline_cons cmd) as (name & args & ->).
  unfold runBenchmark_parts. rewrite Hwarm. reflexivity.
Qed.

Lemma runBenchmark_zero_runs_panics_witness :
  runBenchmark steady_env wide_console 0 2 sample_cmd fresh_world
  = Panicked DivideByZero.
Proof.
  apply (runBenchmark_zero_runs_panics windowsTimer windowsTimer_timer
           steady_env wide_console 2 sample_cmd fresh_world).
  reflexivity.
Defined.

(* ================================================================== *)
(** ** Progress output: the ETA *)

(** C5 (what the code does). Five runs of 10, 20, 30, 40 and 50 ns on an
    80-column terminal: the loop multiplies the running mean by [runs - i] with [i] the index of
    the run just finished, so the progress lines get the ETA values
    50, 60, 60, 50, 30, whereas the running mean times
    [runCount - completedCount] is 40, 45, 40, 25, 0. *)
Theorem runBenchmark_eta_counts_finished_run :
  exists w' r,
    runBenchmark steady_env wide_console 5 0 sample_cmd fresh_world
    = Done (w', Ok r) /\
    samples_of steady_env 0 5 = [10; 20; 30; 40; 50] /\
    map eta (printed w') = [50; 60; 60; 50; 30] /\
    claimed_etas 5 0 0 (samples_of steady_env 0 5) = [40; 45; 40; 25; 0] /\
    map eta (printed w') <> claimed_etas 5 0 0 (samples_of steady_env 0 5).
Proof.
  do 2 eexists. split; [vm_compute; reflexivity |].
  cbn [printed]. repeat split; try (vm_compute; reflexivity).
  vm_compute. intros Hc. discriminate Hc.
Qed.

(* ================================================================== *)
(** ** Running mean against the mean of the whole array *)

Lemma sumZ_nonneg (l : list Z) : Forall (fun x => 0 <= x) l -> 0 <= sumZ l.
Proof.
  induction 1 as [| x l Hx _ IH]; cbn [sumZ fold_right]; [lia |].
  fold (sumZ l). lia.
Qed.

(** The truncations of the running mean add up: after [n] samples the
    running mean times [n] is below the sum by at most [n (n - 1) / 2].
    [P] stands for the sum of the [count] samples already folded. *)
Lemma running_means_invariant (samples : list Z) :
  forall (est count P : Z),
    0 <= count -> 0 <= est ->
    Forall (fun x => 0 <= x) samples ->
    count * est <= P ->
    2 * (P - count * est) <= count * (count - 1) ->
    P + sumZ samples <= MaxInt64 ->
    count + Z.of_nat (List.length samples) <= MaxInt64 ->
    exists m,
      running_means est count samples = Done m /\
      0 <= m /\
      (count + Z.of_nat (List.length samples)) * m <= P + sumZ samples /\
      2 * (P + sumZ samples - (count + Z.of_nat (List.length samples)) * m)
      <= (count + Z.of_nat (List.length samples))
         * (count + Z.of_nat (List.length samples) - 1).
Proof.
  induction samples as [| x xs IH];
    intros est count P Hc He Hpos Hlow Hhigh Hsum Hlen.
  - exists est. cbn [running_means sumZ fold_right List.length].
    rewrite !Z.add_0_r. auto.
  - inversion Hpos as [| ? ? Hx Hxs]; subst.
    cbn [sumZ fold_right] in Hsum. fold (sumZ xs) in Hsum.
    cbn [List.length] in Hlen.
    pose proof (sumZ_nonneg xs Hxs) as Hsx.
    assert (Hidx : 0 <= count < MaxInt64) by lia.
    assert (Hprod : 0 <= est * count <= P) by nia.
    cbn [running_means]. rewrite (updateRunningMean_done _ _ _ Hidx).
    cbn [bind]. rewrite (add_succ_index count Hidx).
    unfold mul, add.
    rewrite (wrap64_small (est * count))
      by (unfold in_range, MinInt64, MaxInt64 in *; lia).
    rewrite (wrap64_small (est * count + x))
      by (unfold in_range, MinInt64, MaxInt64 in *; lia).
    rewrite Z.quot_div_nonneg by lia.
    pose proof (Z.div_mod (est * count + x) (count + 1) ltac:(lia)) as Hdm.
    pose proof (Z.mod_pos_bound (est * count + x) (count + 1) ltac:(lia))
      as Hmod.
    pose proof (Z.div_pos (est * count + x) (count + 1) ltac:(lia)
                  ltac:(lia)) as Hq0.
    set (q := (est * count + x) / (count + 1)) in *.
    assert (Hqle : q <= est * count + x) by nia.
    rewrite (wrap64_small q)
      by (unfold in_range, MinInt64, MaxInt64 in *; lia).
    destruct (IH q (count + 1) (P + x)) as (m & Hm & Hm0 & Hml & Hmh);
      try lia; try assumption; try nia.
    exists m. cbn [sumZ fold_right List.length]. fold (sumZ xs).
    replace (count + Z.of_nat (S (List.length xs)))
      with (count + 1 + Z.of_nat (List.length xs)) by lia.
    replace (P + (x + sumZ xs)) with (P + x + sumZ xs) by lia.
    auto.
Qed.

Lemma quot_rem_bounds (a d : Z) :
  0 < d -> exists r, a = d * Z.quot a d + r /\ - d < r < d.
Proof.
  intros Hd. exists (Z.rem a d). split; [apply Z.quot_rem' |].
  pose proof (Z.rem_bound_abs a d ltac:(lia)). lia.
Qed.

(** The same for samples of either sign, all within [-B, B]: each step
    truncates towards zero and loses less than one count, so after [n]
    samples the sum and [n] times the running mean differ by at most
    [n (n - 1) / 2] either way. *)
Lemma running_means_invariant_signed (samples : list Z) :
  forall (est count P B : Z),
    0 <= count -> 0 <= B -> - B <= est <= B ->
    Forall (fun x => - B <= x <= B) samples ->
    - (count * (count - 1)) <= 2 * (P - count * est)
      <= count * (count - 1) ->
    (count + Z.of_nat (List.length samples)) * B <= MaxInt64 ->
    count + Z.of_nat (List.length samples) <= MaxInt64 ->
    exists m,
      running_means est count samples = Done m /\
      - B <= m <= B /\
      - ((count + Z.of_nat (List.length samples))
         * (count + Z.of_nat (List.length samples) - 1))
      <= 2 * (P + sumZ samples
              - (count + Z.of_nat (List.length samples)) * m)
      <= (count + Z.of_nat (List.length samples))
         * (count + Z.of_nat (List.length samples) - 1).
Proof.
  induction samples as [| x xs IH];
    intros est count P B Hc HB He Hall Hinv Hfit Hlen.
  - exists est. cbn [running_means sumZ fold_right List.length].
    rewrite !Z.add_0_r. auto.
  - inversion Hall as [| ? ? Hx Hxs]; subst.
    cbn [List.length] in Hfit, Hlen.
    assert (Hidx : 0 <= count < MaxInt64) by lia.
    assert (Hprod : - (count * B) <= est * count <= count * B) by nia.
    assert (HcB : (count + 1) * B <= MaxInt64) by nia.
    cbn [running_means]. rewrite (updateRunningMean_done _ _ _ Hidx).
    cbn [bind]. rewrite (add_succ_index count Hidx).
    unfold mul, add.
    rewrite (wrap64_small (est * count))
      by (unfold in_range, MinInt64, MaxInt64 in *; lia).
    rewrite (wrap64_small (est * count + x))
      by (unfold in_range, MinInt64, MaxInt64 in *; lia).
    destruct (quot_rem_bounds (est * count + x) (count + 1) ltac:(lia))
      as (r & Hqr & Hr).
    pose proof (quot_between (est * count + x) (count + 1) (- B) B
                  ltac:(lia) ltac:(lia)) as Hq.
    set (q := Z.quot (est * count + x) (count + 1)) in *.
    rewrite (wrap64_small q)
      by (unfold in_range, MinInt64, MaxInt64 in *; lia).
    destruct (IH q (count + 1) (P + x) B) as (m & Hm & HmB & Hmb);
      try lia; try assumption.
    exists m. cbn [sumZ fold_right List.length]. fold (sumZ xs).
    replace (count + Z.of_nat (S (List.length xs)))
      with (count + 1 + Z.of_nat (List.length xs)) by lia.
    replace (P + (x + sumZ xs)) with (P + x + sumZ xs) by lia.
    auto.
Qed.

(** C8 as written fails when the tolerance is one unit of integer
    truncation: for the samples 0, 1, 2, 3, 4 the running mean stays at 0
    while the mean of the array, which is what the result reports,
    is 2. *)
Lemma running_mean_drifts_from_direct_mean :
  exists w' r,
    runBenchmark ramp_env wide_console 5 0 sample_cmd fresh_world
    = Done (w', Ok r) /\
    samples_of ramp_env 0 5 = [0; 1; 2; 3; 4] /\
    running_means 0 0 [0; 1; 2; 3; 4] = Done 0 /\
    Z.quot (sumZ [0; 1; 2; 3; 4]) 5 = 2 /\
    r_mean r = 2 /\
    ~ (Z.abs (2 - 0) <= 1).
Proof.
  do 2 eexists. split; [vm_compute; reflexivity |].
  cbn [r_mean]. repeat split; try reflexivity. lia.
Qed.

(** C8 (amended). When the warmup runs and the measured launches succeed
    and every progress line can be drawn, the mean of the emitted result
    is the sum of the sample array divided by [runs], not the running
    mean, and the two differ by the accumulated truncation only. For
    samples of either sign within [-B, B] with [runs * B] in [int64],
    folding the running-mean update over the samples gives a value within
    [runs / 2] of the truncated mean of the whole array. For non-negative
    samples whose sum fits in [int64] it never exceeds that mean and
    falls short of it by at most [(runs - 1) / 2]. *)
Theorem running_mean_within_accumulated_truncation :
  forall (env : nat -> launch) (con : console) (runs warmup : Z)
         (cmd : gostring) (w : world windowsTimer),
    1 <= runs <= MaxInt64 ->
    can_draw con runs ->
    snd (warmup_loop env (Z.to_nat warmup) (launched w)) = None ->
    (forall j, (j < Z.to_nat runs)%nat ->
       good (env (fst (warmup_loop env (Z.to_nat warmup) (launched w))
                  + j)%nat)) ->
    let samples :=
      samples_of env (fst (warmup_loop env (Z.to_nat warmup) (launched w)))
        (Z.to_nat runs) in
    (forall B,
        0 <= B -> Forall (fun x => - B <= x <= B) samples ->
        runs * B <= MaxInt64 ->
        exists w' r est,
          runBenchmark env con runs warmup cmd w = Done (w', Ok r) /\
          running_means 0 0 samples = Done est /\
          r_mean r = Z.quot (sumZ samples) runs /\
          - runs <= 2 * (r_mean r - est) <= runs) /\
    (Forall (fun x => 0 <= x) samples ->
     sumZ samples <= MaxInt64 ->
     exists w' r est,
       runBenchmark env con runs warmup cmd w = Done (w', Ok r) /\
       running_means 0 0 samples = Done est /\
       r_mean r = Z.quot (sumZ samples) runs /\
       est <= r_mean r /\
       2 * (r_mean r - est) <= runs - 1).
Proof.
  intros env con runs warmup cmd w Hruns Hdraw Hwarm Hgood samples.
  destruct (runBenchmark_success env con runs warmup cmd w Hruns Hdraw Hwarm
              Hgood)
    as (w' & r & est & Hrun & _ & _ & Hmean & _ & _ & Hest & _).
  fold samples in Hmean, Hest.
  assert (Hlen : Z.of_nat (List.length samples) = runs).
  { unfold samples. rewrite samples_of_length. lia. }
  split.
  - intros B HB Hall Hfit.
    assert (Hs : runs * - B <= sumZ samples <= runs * B).
    { rewrite <- Hlen. apply sumZ_bounds.
      rewrite Forall_forall in Hall. exact Hall. }
    assert (Hr : in_range (sumZ samples))
      by (unfold in_range, MinInt64, MaxInt64 in *; lia).
    rewrite (wrap64_small _ Hr) in Hmean.
    rewrite wrap64_small in Hmean
      by (apply quot_in_range; [exact Hr | lia]).
    destruct (running_means_invariant_signed samples 0 0 0 B)
      as (m & Hm & HmB & Hmb); try lia; try assumption.
    rewrite Hm in Hest. inversion Hest; subst est.
    rewrite Z.add_0_l, Hlen in Hmb.
    exists w', r, m. split; [exact Hrun |]. split; [exact Hm |].
    split; [exact Hmean |].
    rewrite Hmean.
    destruct (quot_rem_bounds (sumZ samples) runs ltac:(lia))
      as (rem & Hqr & Hrem).
    set (d := Z.quot (sumZ samples) runs) in *.
    split; nia.
  - intros Hpos Hsum.
    pose proof (sumZ_nonneg samples Hpos) as Hs0.
    assert (Hr : in_range (sumZ samples))
      by (unfold in_range, MinInt64, MaxInt64 in *; lia).
    rewrite (wrap64_small _ Hr) in Hmean.
    rewrite wrap64_small in Hmean
      by (apply quot_in_range; [exact Hr | lia]).
    destruct (running_means_invariant samples 0 0 0)
      as (m & Hm & Hm0 & Hml & Hmh); try lia; try assumption.
    rewrite Hm in Hest. inversion Hest; subst est.
    rewrite Z.add_0_l, Hlen in Hml, Hmh.
    exists w', r, m. split; [exact Hrun |]. split; [exact Hm |].
    split; [exact Hmean |].
    rewrite Hmean, Z.quot_div_nonneg by lia.
    pose proof (Z.div_mod (sumZ samples) runs ltac:(lia)) as Hdm.
    pose proof (Z.mod_pos_bound (sumZ samples) runs ltac:(lia)) as Hmod.
    split; [apply Z.div_le_lower_bound; lia | nia].
Qed.

Lemma running_mean_within_accumulated_truncation_witness :
  (exists w' r est,
      runBenchmark ramp_env wide_console 5 0 sample_cmd fresh_world
      = Done (w', Ok r) /\
      running_means 0 0 (samples_of ramp_env 0 5) = Done est /\
      r_mean r = Z.quot (sumZ (samples_of ramp_env 0 5)) 5 /\
      - 5 <= 2 * (r_mean r - est) <= 5) /\
  (exists w' r est,
      runBenchmark ramp_env wide_console 5 0 sample_cmd fresh_world
      = Done (w', Ok r) /\
      running_means 0 0 (samples_of ramp_env 0 5) = Done est /\
      r_mean r = Z.quot (sumZ (samples_of ramp_env 0 5)) 5 /\
      est <= r_mean r /\
      2 * (r_mean r - est) <= 5 - 1).
Proof.
  destruct (running_mean_within_accumulated_truncation ramp_env
              wide_console 5 0 sample_cmd fresh_world)
    as [Hsigned Hnonneg].
  - unfold MaxInt64. lia.
  - draw_wide.
  - reflexivity.
  - intros j Hj. split; reflexivity.
  - split.
    + apply (Hsigned 4).
      * lia.
      * repeat constructor; vm_compute; intros Hc; discriminate Hc.
      * vm_compute. intros Hc. discriminate Hc.
    + apply Hnonneg.
      * repeat constructor; vm_compute; intros Hc; discriminate Hc.
      * vm_compute. intros Hc. discriminate Hc.
Defined.

(* ================================================================== *)
(** ** The comparison summary *)

Lemma insert_stable_perm (x : benchmarkResult) (l : list benchmarkResult) :
  Permutation (x :: l) (insert_stable less_mean x l).
Proof.
  induction l as [| y l IH]; cbn [insert_stable]; [reflexivity |].
  destruct (less_mean y x); [| reflexivity].
  rewrite perm_swap. constructor. exact IH.
Qed.

Lemma SliceStable_perm (l : list benchmarkResult) :
  Permutation l (SliceStable less_mean l).
Proof.
  induction l as [| x l IH]; cbn [SliceStable]; [constructor |].
  rewrite <- insert_stable_perm. constructor. exact IH.
Qed.

Lemma insert_stable_sorted (x : benchmarkResult) (l : list benchmarkResult) :
  StronglySorted mean_le l -> StronglySorted mean_le (insert_stable less_mean x l).
Proof.
  induction 1 as [| y l Hs IH Hall]; cbn [insert_stable].
  - repeat constructor.
  - unfold less_mean at 1. destruct (Z.ltb_spec (r_mean y) (r_mean x)) as [Hlt | Hge].
    + constructor; [exact IH |].
      apply (Permutation_Forall (insert_stable_perm x l)).
      constructor; [unfold mean_le; lia | exact Hall].
    + constructor; [constructor; assumption |].
      constructor; [exact Hge |].
      eapply Forall_impl; [| exact Hall].
      unfold mean_le. intros z Hz. lia.
Qed.

Lemma SliceStable_sorted (l : list benchmarkResult) :
  StronglySorted mean_le (SliceStable less_mean l).
Proof.
  induction l as [| x l IH]; cbn [SliceStable]; [constructor |].
  apply insert_stable_sorted. exact IH.
Qed.

(** Inserting [x] passes only elements of strictly smaller mean, so the
    elements of any one mean keep their order. *)
Lemma insert_stable_filter (m : Z) (x : benchmarkResult)
  (l : list benchmarkResult) :
  filter (has_mean m) (insert_stable less_mean x l)
  = filter (has_mean m) (x :: l).
Proof.
  induction l as [| y l IH]; cbn [insert_stable]; [reflexivity |].
  unfold less_mean at 1.
  destruct (Z.ltb_spec (r_mean y) (r_mean x)) as [Hlt | Hge];
    [| reflexivity].
  cbn [filter] in *. rewrite IH. unfold has_mean.
  destruct (Z.eqb_spec (r_mean x) m), (Z.eqb_spec (r_mean y) m);
    try reflexivity.
  lia.
Qed.

Lemma SliceStable_filter (m : Z) (l : list benchmarkResult) :
  filter (has_mean m) (SliceStable less_mean l) = filter (has_mean m) l.
Proof.
  induction l as [| x l IH]; cbn [SliceStable]; [reflexivity |].
  rewrite insert_stable_filter. cbn [filter]. rewrite IH. reflexivity.
Qed.

Lemma summary_step_unfolds (baseline res : benchmarkResult)
  (acc : list summary_line) :
  summary_step (Some baseline, acc) res
  = (Some baseline, acc ++ [expected_line baseline res]).
Proof. reflexivity. Qed.

Lemma summary_fold_rest (baseline : benchmarkResult)
  (others : list benchmarkResult) :
  forall acc,
    fold_left summary_step others (Some baseline, acc)
    = (Some baseline, acc ++ map (expected_line baseline) others).
Proof.
  induction others as [| res others IH]; intros acc; cbn [fold_left map].
  - rewrite app_nil_r. reflexivity.
  - rewrite summary_step_unfolds, IH, <- app_assoc. reflexivity.
Qed.

(** C7. The summary sorts the results by mean real time, ascending and
    keeping the input order of equal means; the first of the sorted
    results is the baseline and gets no ratio line, and no line at all is
    printed for fewer than two results; every other result gets the ratio
    [mean / baselineMean] and the spread
    [|(mean+stdev)/(baselineMean+baselineStdev) - ratio|
     + |ratio - (mean-stdev)/(baselineMean-baselineStdev)|]; a result with
    mean 100 and deviation 10 against a baseline with mean 50 and
    deviation 5 gets the ratio 2. *)
Theorem summary_ratio_against_fastest :
  forall (results : list benchmarkResult),
    let sorted := SliceStable less_mean results in
    Permutation results sorted /\
    StronglySorted mean_le sorted /\
    (forall m, filter (has_mean m) sorted = filter (has_mean m) results) /\
    ((List.length results <= 1)%nat -> summary results = []) /\
    (forall baseline others,
        (1 < List.length results)%nat ->
        sorted = baseline :: others ->
        summary results
        = Ran (r_cmd baseline) :: map (expected_line baseline) others) /\
    summary [plain_result [115] 100 10%float; plain_result [102] 50 5%float]
    = [Ran [102]; TimesFaster 2%float 0%float [115]].
Proof.
  intros results sorted. unfold sorted.
  split; [apply SliceStable_perm |].
  split; [apply SliceStable_sorted |].
  split; [intros m; apply SliceStable_filter |].
  split; [| split].
  - intros Hlen. unfold summary.
    destruct (Z.ltb_spec 1 (Z.of_nat (List.length results))); [lia |].
    reflexivity.
  - intros baseline others Hlen Hsorted. unfold summary.
    destruct (Z.ltb_spec 1 (Z.of_nat (List.length results))); [| lia].
    rewrite Hsorted. cbn [fold_left]. unfold summary_step at 2.
    cbn [fst snd app]. rewrite summary_fold_rest. reflexivity.
  - vm_compute. reflexivity.
Qed.

Lemma summary_ratio_against_fastest_witness :
  summary [plain_result [115] 100 10%float; plain_result [102] 50 5%float;
           plain_result [116] 50 0%float]
  = Ran [102]
      :: map (expected_line (plain_result [102] 50 5%float))
           [plain_result [116] 50 0%float;
            plain_result [115] 100 10%float] /\
  summary [plain_result [115] 100 10%float] = [].
Proof.
  pose proof (summary_ratio_against_fastest
                [plain_result [115] 100 10%float;
                 plain_result [102] 50 5%float;
                 plain_result [116] 50 0%float])
    as (_ & _ & _ & _ & Hlines & _).
  pose proof (summary_ratio_against_fastest
                [plain_result [115] 100 10%float])
    as (_ & _ & _ & Hone & _).
  split.
  - apply (Hlines (plain_result [102] 50 5%float)
             [plain_result [116] 50 0%float;
              plain_result [115] 100 10%float]);
      [simpl; lia | reflexivity].
  - apply Hone. simpl. lia.
Defined.

(* ================================================================== *)
(** * Further properties *)

(** ** The tokenizer: what is kept and where it splits *)

Lemma filter_ordinary_snoc (l : gostring) (ch : rune) :
  filter is_ordinary (l ++ [ch])
  = filter is_ordinary l ++ filter is_ordinary [ch].
Proof. apply filter_app. Qed.

Lemma tokenizer_step_emitted (st : tokenizer) (ch : rune) :
  filter is_ordinary (emitted (tokenizer_step st ch))
  = filter is_ordinary (emitted st) ++ filter is_ordinary [ch].
Proof.
  unfold tokenizer_step, emitted.
  destruct (is_quote ch) eqn:Hq; cbn [andb].
  - assert (Hn : filter is_ordinary [ch] = []).
    { cbn [filter]. unfold is_ordinary. rewrite Hq. reflexivity. }
    destruct (not_escaped (prev st));
      [destruct (inQuote st =? 0); [| destruct (inQuote st =? ch)] |
       destruct (is_blank ch && (inQuote st =? 0))];
      cbn [cmdParts b]; rewrite ?concat_app; cbn [List.concat];
      rewrite ?app_nil_r, ?app_assoc, ?filter_app, ?Hn, ?app_nil_r;
      reflexivity.
  - destruct (is_blank ch) eqn:Hb; cbn [andb].
    + assert (Hn : filter is_ordinary [ch] = []).
      { cbn [filter]. unfold is_ordinary. rewrite Hb, andb_false_r.
        reflexivity. }
      destruct (inQuote st =? 0); cbn [cmdParts b];
        rewrite ?concat_app; cbn [List.concat];
        rewrite ?app_nil_r, ?app_assoc, ?filter_app, ?Hn, ?app_nil_r;
        reflexivity.
    + cbn [cmdParts b]. rewrite app_assoc, filter_app. reflexivity.
Qed.

Lemma tokenizer_fold_emitted (cmd : gostring) :
  forall st,
    filter is_ordinary (emitted (fold_left tokenizer_step cmd st))
    = filter is_ordinary (emitted st) ++ filter is_ordinary cmd.
Proof.
  induction cmd as [| ch cmd IH]; intros st.
  - cbn [fold_left filter]. rewrite app_nil_r. reflexivity.
  - cbn [fold_left]. rewrite IH, tokenizer_step_emitted, <- app_assoc.
    change (ch :: cmd) with ([ch] ++ cmd). rewrite (filter_app _ [ch] cmd).
    reflexivity.
Qed.

(** X1. The tokenizer only ever removes quotes and blanks: the runes of
    the input that are neither, backslashes included, all appear in the
    parts, in the input's order and with nothing added between them. *)
Theorem list2Cmdline_keeps_ordinary_runes :
  forall (cmd : gostring),
    filter is_ordinary (List.concat (list2Cmdline cmd)) = filter is_ordinary cmd.
Proof.
  intros cmd. unfold list2Cmdline. cbv zeta.
  rewrite concat_app. cbn [List.concat]. rewrite app_nil_r.
  pose proof (tokenizer_fold_emitted cmd (mkTokenizer [] 0 [] None)) as H.
  unfold emitted in H. cbn [cmdParts b List.concat app filter] in H. exact H.
Qed.

Lemma is_blank_not_quote (ch : rune) :
  is_blank ch = true -> is_quote ch = false /\ ch <> rune_backslash.
Proof.
  unfold is_blank, is_quote, rune_space, rune_tab, rune_dquote, rune_squote,
    rune_backslash.
  intros Hb. apply orb_true_iff in Hb.
  destruct Hb as [Hb | Hb]; apply Z.eqb_eq in Hb; subst ch;
    (split; [reflexivity | intros Hc; discriminate Hc]).
Qed.

(** Runes that are neither quotes nor blanks go to the builder, whatever
    the state. *)
Lemma tokenizer_fold_ordinary (p : gostring) :
  Forall (fun ch => is_ordinary ch = true) p ->
  forall st,
    fold_left tokenizer_step p st
    = mkTokenizer (cmdParts st) (inQuote st) (b st ++ p)
        (match p with
         | [] => prev st
         | _ :: _ => Some (last p 0)
         end).
Proof.
  induction 1 as [| ch p Hch _ IH]; intros st.
  - cbn [fold_left]. rewrite app_nil_r. destruct st; reflexivity.
  - cbn [fold_left].
    unfold is_ordinary in Hch. apply andb_true_iff in Hch.
    destruct Hch as [Hq Hb].
    apply negb_true_iff in Hq. apply negb_true_iff in Hb.
    assert (Hstep : tokenizer_step st ch
                    = mkTokenizer (cmdParts st) (inQuote st) (b st ++ [ch])
                        (Some ch)).
    { unfold tokenizer_step. rewrite Hq, Hb. reflexivity. }
    rewrite Hstep, IH. cbn [cmdParts inQuote b prev].
    rewrite <- app_assoc. cbn [app].
    destruct p as [| ch' p]; reflexivity.
Qed.

(** The parts emitted before are carried along unchanged, and the
    previous rune matters only through the escape test. *)
Lemma tokenizer_fold_carries_parts (rest : gostring) :
  forall (before parts : list gostring) (q : rune) (bld : gostring)
         (pv pv' : option rune),
    not_escaped pv = not_escaped pv' ->
    let st := fold_left tokenizer_step rest
                (mkTokenizer (before ++ parts) q bld pv) in
    let st' := fold_left tokenizer_step rest
                 (mkTokenizer parts q bld pv') in
    cmdParts st ++ [b st] = before ++ cmdParts st' ++ [b st'].
Proof.
  induction rest as [| ch rest IH]; intros before parts q bld pv pv' Hesc.
  - cbn [fold_left cmdParts b]. rewrite app_assoc. reflexivity.
  - cbn [fold_left]. cbv zeta.
    assert (Hstep :
      exists parts' q' bld',
        tokenizer_step (mkTokenizer parts q bld pv') ch
        = mkTokenizer parts' q' bld' (Some ch) /\
        tokenizer_step (mkTokenizer (before ++ parts) q bld pv) ch
        = mkTokenizer (before ++ parts') q' bld' (Some ch)).
    { unfold tokenizer_step. cbn [cmdParts inQuote b prev]. rewrite Hesc.
      destruct (is_quote ch && not_escaped pv').
      - destruct (q =? 0); [eauto |].
        destruct (q =? ch); eauto.
      - destruct (is_blank ch && (q =? 0)); [| eauto].
        do 3 eexists. split; [reflexivity |].
        rewrite app_assoc. reflexivity. }
    destruct Hstep as (parts' & q' & bld' & -> & ->).
    apply (IH before parts' q' bld' (Some ch) (Some ch) eq_refl).
Qed.

(** X2. A command line that has no quote in front of its first blank is
    split at that blank: when [p] holds neither quotes nor blanks,
    [list2Cmdline p] is the single part [p], and for any blank and any
    text [rest] after it, quoted or not, [list2Cmdline] of [p], the blank
    and [rest] is [p] followed by the parts of [rest]. A command line
    without quotes is therefore split at every blank, two blanks in a row
    giving an empty part. *)
Theorem list2Cmdline_unquoted_splits_at_blanks :
  forall (p : gostring),
    Forall (fun ch => is_ordinary ch = true) p ->
    list2Cmdline p = [p] /\
    forall (blank : rune) (rest : gostring),
      is_blank blank = true ->
      list2Cmdline (p ++ blank :: rest) = p :: list2Cmdline rest.
Proof.
  intros p Hp. split.
  - unfold list2Cmdline. cbv zeta. rewrite (tokenizer_fold_ordinary p Hp).
    reflexivity.
  - intros blank rest Hblank.
    destruct (is_blank_not_quote blank Hblank) as [Hnq Hnb].
    unfold list2Cmdline. cbv zeta.
    rewrite fold_left_app, (tokenizer_fold_ordinary p Hp).
    cbn [fold_left cmdParts inQuote b prev app].
    assert (Hstep :
      forall pv,
        tokenizer_step (mkTokenizer [] 0 p pv) blank
        = mkTokenizer [p] 0 [] (Some blank)).
    { intros pv. unfold tokenizer_step. rewrite Hnq, Hblank. reflexivity. }
    rewrite Hstep.
    pose proof (tokenizer_fold_carries_parts rest [p] [] 0 [] (Some blank)
                  None) as Hcarry.
    cbv zeta in Hcarry. rewrite app_nil_r in Hcarry.
    rewrite Hcarry; [reflexivity |].
    cbn [not_escaped].
    destruct (Z.eqb_spec blank rune_backslash); [contradiction | reflexivity].
Qed.

Lemma list2Cmdline_unquoted_splits_at_blanks_witness :
  list2Cmdline [97; 98] = [[97; 98]] /\
  list2Cmdline ([97; 98] ++ 32 :: [32; 34; 99; 32; 100; 34])
  = [97; 98] :: list2Cmdline [32; 34; 99; 32; 100; 34].
Proof.
  destruct (list2Cmdline_unquoted_splits_at_blanks [97; 98]
              ltac:(repeat constructor)) as [Hone Hsplit].
  split; [exact Hone |].
  apply Hsplit. reflexivity.
Defined.

Lemma tokenizer_fold_inside_quote (q : rune) (body : gostring) :
  q <> 0 ->
  Forall (fun ch => is_quote ch = false) body ->
  forall st,
    inQuote st = q ->
    fold_left tokenizer_step body st
    = mkTokenizer (cmdParts st) q (b st ++ body)
        (match body with
         | [] => prev st
         | _ :: _ => Some (last body 0)
         end).
Proof.
  intros Hq Hnq. induction Hnq as [| ch body Hch Hrest IH]; intros st Hin.
  - cbn [fold_left]. rewrite app_nil_r. destruct st; cbn in *; subst.
    reflexivity.
  - cbn [fold_left].
    assert (Hstep : tokenizer_step st ch
                    = mkTokenizer (cmdParts st) q (b st ++ [ch]) (Some ch)).
    { unfold tokenizer_step. rewrite Hch, Hin. cbn [andb].
      destruct (Z.eqb_spec q 0) as [Hz | _]; [contradiction |].
      rewrite andb_false_r. reflexivity. }
    rewrite Hstep.
    rewrite (IH (mkTokenizer (cmdParts st) q (b st ++ [ch]) (Some ch))
               eq_refl).
    cbn [cmdParts b prev].
    rewrite <- app_assoc. cbn [app].
    destruct body as [| ch' body]; reflexivity.
Qed.

(** X3. A quoted argument is one part: between a pair of equal quote
    characters, text that has no quote character in it and does not end
    in a backslash is returned as a single part, blanks included and the
    two quotes removed. *)
Theorem list2Cmdline_quoted_is_one_part :
  forall (q : rune) (body : gostring),
    is_quote q = true ->
    Forall (fun ch => is_quote ch = false) body ->
    last body 0 <> rune_backslash ->
    list2Cmdline (q :: body ++ [q]) = [body].
Proof.
  intros q body Hq Hnq Hlast.
  assert (Hq0 : q <> 0).
  { intros ->. discriminate Hq. }
  assert (Hqb : q <> rune_backslash).
  { intros ->. discriminate Hq. }
  unfold list2Cmdline. cbv zeta. cbn [fold_left].
  assert (Hfirst : tokenizer_step (mkTokenizer [] 0 [] None) q
                   = mkTokenizer [] q [] (Some q)).
  { unfold tokenizer_step. rewrite Hq. reflexivity. }
  rewrite Hfirst, fold_left_app.
  rewrite (tokenizer_fold_inside_quote q body Hq0 Hnq
             (mkTokenizer [] q [] (Some q)) eq_refl).
  cbn [cmdParts b prev app fold_left].
  unfold tokenizer_step. cbn [prev inQuote cmdParts b]. rewrite Hq.
  assert (Hesc : not_escaped
                   (match body with
                    | [] => Some q
                    | _ :: _ => Some (last body 0)
                    end) = true).
  { destruct body as [| ch body]; cbn [not_escaped].
    - destruct (Z.eqb_spec q rune_backslash); [contradiction | reflexivity].
    - destruct (Z.eqb_spec (last (ch :: body) 0) rune_backslash);
        [contradiction | reflexivity]. }
  rewrite Hesc. cbn [andb].
  destruct (Z.eqb_spec q 0) as [Hz | _]; [contradiction |].
  rewrite Z.eqb_refl. reflexivity.
Qed.

Lemma list2Cmdline_quoted_is_one_part_witness :
  list2Cmdline (34 :: [97; 32; 98] ++ [34]) = [[97; 32; 98]].
Proof.
  apply (list2Cmdline_quoted_is_one_part 34 [97; 32; 98]).
  - reflexivity.
  - repeat constructor.
  - cbn. intros Hc. discriminate Hc.
Defined.

(* ================================================================== *)
(** ** Unit selection: the size of the displayed value *)

(** X4. For a positive duration the chosen divisor is one of the six
    tiers and scales the value into the range of its unit: the integer
    part of the displayed value is at least 1, below 1000 for ns, µs and
    ms, and below 60 for s and m (hours are unbounded). *)
Theorem getMeasurementMetrics_shown_value_range :
  forall (timing : Z),
    in_range timing -> 0 < timing ->
    exists d u,
      In d denominators /\
      getMeasurementMetrics timing = Done (float64_of_int64 d, u) /\
      1 <= Z.quot timing d /\
      (d < Second -> Z.quot timing d < 1000) /\
      (Second <= d < Hour -> Z.quot timing d < 60).
Proof.
  intros timing Hr Hpos.
  rewrite (getMeasurementMetrics_thresholds timing Hr).
  unfold denominators, Hour, Minute, Second, Millisecond, Microsecond,
    Nanosecond.
  repeat match goal with
         | |- context [?x <=? timing] => destruct (Z.leb_spec x timing)
         end;
  try (exfalso; lia);
  do 2 eexists;
  (refine (conj _ (conj eq_refl _)); [cbn [In]; auto 10 |]);
  rewrite Z.quot_div_nonneg by lia;
  (split; [apply Z.div_le_lower_bound; lia |]);
  split; intros Hd; try lia; apply Z.div_lt_upper_bound; lia.
Qed.

Lemma getMeasurementMetrics_shown_value_range_witness :
  exists d u,
    In d denominators /\
    getMeasurementMetrics 2500000 = Done (float64_of_int64 d, u) /\
    1 <= Z.quot 2500000 d /\
    (d < Second -> Z.quot 2500000 d < 1000) /\
    (Second <= d < Hour -> Z.quot 2500000 d < 60).
Proof.
  apply (getMeasurementMetrics_shown_value_range 2500000);
    unfold in_range, MinInt64, MaxInt64; lia.
Defined.

(* ================================================================== *)
(** ** The deviation: the integer accumulation *)

Lemma wrap64_mod (a : Z) : wrap64 a mod 2 ^ 64 = a mod 2 ^ 64.
Proof.
  unfold wrap64. rewrite Zminus_mod_idemp_l. f_equal. lia.
Qed.

Lemma wrap64_congr (x y : Z) :
  x mod 2 ^ 64 = y mod 2 ^ 64 -> wrap64 x = wrap64 y.
Proof.
  intros Heq. unfold wrap64.
  rewrite (Zplus_mod x), (Zplus_mod y), Heq. reflexivity.
Qed.

Lemma wrap64_square_step (acc v mean : Z) :
  add (wrap64 acc) (mul (sub v mean) (sub v mean))
  = wrap64 (acc + (v - mean) * (v - mean)).
Proof.
  unfold add, mul, sub. apply wrap64_congr.
  rewrite Zplus_mod, !wrap64_mod, <- Zplus_mod.
  rewrite (Zplus_mod acc
             (wrap64 (v - mean) * wrap64 (v - mean))).
  rewrite (Zmult_mod (wrap64 (v - mean))), !wrap64_mod, <- Zmult_mod.
  rewrite <- Zplus_mod. reflexivity.
Qed.

Lemma stdev_numerator_fold (values : list Z) (mean : Z) :
  forall acc,
    fold_left (fun numerator value =>
                 let delta := sub value mean in
                 add numerator (mul delta delta))
              values (wrap64 acc)
    = wrap64 (acc + sum_sq values mean).
Proof.
  induction values as [| v values IH]; intros acc.
  - cbn [fold_left sum_sq fold_right]. rewrite Z.add_0_r. reflexivity.
  - cbn [fold_left sum_sq fold_right]. cbv zeta.
    rewrite wrap64_square_step, IH. fold (sum_sq values mean).
    f_equal. lia.
Qed.

Lemma sum_sq_nonneg (values : list Z) (mean : Z) : 0 <= sum_sq values mean.
Proof.
  induction values as [| v values IH]; unfold sum_sq; cbn [fold_right];
    [lia |].
  fold (sum_sq values mean).
  pose proof (Z.square_nonneg (v - mean)). lia.
Qed.

(** X5. The accumulator of [stdev] is the exact sum of the squared
    deviations reduced to [int64]; whenever that sum fits in [int64] the
    accumulator is exact and not negative, and [stdev] is the square root
    of the sum divided by the number of values less one. *)
Theorem stdev_numerator_is_wrapped_sum_of_squares :
  forall (values : list Z) (mean : Z),
    stdev_numerator values mean = wrap64 (sum_sq values mean) /\
    (sum_sq values mean <= MaxInt64 ->
     stdev_numerator values mean = sum_sq values mean /\
     0 <= stdev_numerator values mean /\
     stdev values mean
     = PrimFloat.sqrt
         (PrimFloat.div
            (float64_of_int64 (sum_sq values mean))
            (float64_of_int64 (Z.of_nat (List.length values) - 1)))).
Proof.
  intros values mean.
  assert (Hw : stdev_numerator values mean = wrap64 (sum_sq values mean)).
  { unfold stdev_numerator. change 0 with (wrap64 0) at 1.
    rewrite stdev_numerator_fold. reflexivity. }
  split; [exact Hw |]. intros Hfit.
  pose proof (sum_sq_nonneg values mean) as Hpos.
  assert (Heq : stdev_numerator values mean = sum_sq values mean).
  { rewrite Hw. apply wrap64_small.
    unfold in_range, MinInt64, MaxInt64 in *. lia. }
  split; [exact Heq |]. split; [lia |].
  unfold stdev. rewrite Heq. reflexivity.
Qed.

Lemma stdev_numerator_is_wrapped_sum_of_squares_witness :
  stdev_numerator [10; 20; 30; 40; 50] 30 = 1000 /\
  0 <= stdev_numerator [10; 20; 30; 40; 50] 30.
Proof.
  destruct (proj2 (stdev_numerator_is_wrapped_sum_of_squares
                     [10; 20; 30; 40; 50] 30)) as (Heq & Hpos & _).
  - vm_compute. intros Hc. discriminate Hc.
  - split; [exact Heq | exact Hpos].
Defined.

(* ================================================================== *)
(** ** The Windows timer: what a run leaves behind *)

(** X6. A successful [Run] records exactly that launch: the real time is
    the elapsed time, and the user and kernel times are the job's totals
    turned from 100 ns ticks into nanoseconds, whatever the timer held
    before. A failed [Run] never changes the recorded user and kernel
    time, so after the [Reset] that the measuring loop does first they
    read as zero. *)
Theorem windowsTimer_Run_records :
  forall (l : launch) (name : gostring) (arg : list gostring)
         (w : windowsTimer),
    (good l ->
     let w' := fst (windowsTimer_Run l name arg w) in
     windowsTimer_GetRealTime w' = elapsed l /\
     windowsTimer_GetUserTime w' = wrap64 (TotalUserTime l * 100) /\
     windowsTimer_GetKernelTime w' = wrap64 (TotalKernelTime l * 100)) /\
    (forall err,
        snd (windowsTimer_Run l name arg w) = Some err ->
        let w' := fst (windowsTimer_Run l name arg w) in
        userTime w' = userTime w /\ kernelTime w' = kernelTime w /\
        let r := fst (windowsTimer_Run l name arg (windowsTimer_Reset w)) in
        windowsTimer_GetUserTime r = 0 /\ windowsTimer_GetKernelTime r = 0).
Proof.
  intros l name arg w. split.
  - intros Hgood. rewrite (windowsTimer_Run_good _ _ _ _ Hgood).
    cbn [fst]. repeat split; reflexivity.
  - intros err. unfold windowsTimer_Run.
    destruct (start_err l); [intros _; repeat split; reflexivity |].
    destruct (createJob l); [| intros _; repeat split; reflexivity].
    destruct (openProcess l); [| intros _; repeat split; reflexivity].
    destruct (assign_err l); [intros _; repeat split; reflexivity |].
    destruct (getMainThreadOfPID l (Pid l)) as [hThread [e |]];
      [intros _; repeat split; reflexivity |].
    destruct (cmd_Wait (wait_res l));
      [intros _; repeat split; reflexivity |].
    destruct (query_err l); [intros _; repeat split; reflexivity |].
    cbn [snd]. discriminate.
Qed.

Lemma windowsTimer_Run_records_witness :
  windowsTimer_GetRealTime
    (fst (windowsTimer_Run (clean_launch 10 3 4 0) [97] []
            (mkWindowsTimer 7 7 7 0))) = 10 /\
  windowsTimer_GetUserTime
    (fst (windowsTimer_Run (clean_launch 10 3 4 0) [97] []
            (mkWindowsTimer 7 7 7 0))) = 300 /\
  windowsTimer_GetUserTime
    (fst (windowsTimer_Run (clean_launch 10 3 4 1) [97] []
            (windowsTimer_Reset (mkWindowsTimer 7 7 7 0)))) = 0.
Proof.
  destruct (windowsTimer_Run_records (clean_launch 10 3 4 0) [97] []
              (mkWindowsTimer 7 7 7 0)) as [Hok _].
  destruct (windowsTimer_Run_records (clean_launch 10 3 4 1) [97] []
              (mkWindowsTimer 7 7 7 0)) as [_ Hfail].
  destruct (Hok ltac:(split; reflexivity)) as (Hreal & Huser & _).
  destruct (Hfail (ErrExit 1) eq_refl) as (_ & _ & Hzero & _).
  split; [exact Hreal |]. split; [exact Huser | exact Hzero].
Defined.

Lemma getMainThreadOfPID_scan_found (entries : list ThreadEntry32) (pid : Z)
  (h : handle) :
  getMainThreadOfPID_scan entries pid = (h, None) <->
  exists front e back,
    entries = front ++ e :: back /\
    Forall (fun t => OwnerProcessID t <> pid) front /\
    OwnerProcessID e = pid /\
    openThread e = inl h.
Proof.
  induction entries as [| t entries IH]; cbn [getMainThreadOfPID_scan].
  - split; [discriminate |].
    intros (front & e & back & Heq & _). destruct front; discriminate.
  - destruct (Z.eqb_spec (OwnerProcessID t) pid) as [Hown | Hother].
    + split.
      * destruct (openThread t) as [h' | errno] eqn:Hopen;
          [| discriminate].
        intros Heq. inversion Heq; subst h'.
        exists [], t, entries. repeat split; auto.
      * intros (front & e & back & Heq & Hfront & He & Hopen).
        destruct front as [| f front].
        -- cbn [app] in Heq. inversion Heq; subst. rewrite Hopen.
           reflexivity.
        -- cbn [app] in Heq. inversion Heq; subst.
           inversion Hfront; subst. contradiction.
    + rewrite IH. split.
      * intros (front & e & back & Heq & Hfront & He & Hopen).
        exists (t :: front), e, back. subst entries.
        repeat split; auto.
      * intros (front & e & back & Heq & Hfront & He & Hopen).
        destruct front as [| f front].
        -- cbn [app] in Heq. inversion Heq; subst. contradiction.
        -- cbn [app] in Heq. inversion Heq; subst.
           inversion Hfront; subst. exists front, e, back.
           repeat split; auto.
Qed.

Lemma getMainThreadOfPID_scan_missing (entries : list ThreadEntry32)
  (pid : Z) :
  Forall (fun t => OwnerProcessID t <> pid) entries ->
  getMainThreadOfPID_scan entries pid
  = (0, Some (ErrSyscall ERROR_NO_MORE_FILES)).
Proof.
  induction 1 as [| t entries Ht _ IH]; cbn [getMainThreadOfPID_scan];
    [reflexivity |].
  destruct (Z.eqb_spec (OwnerProcessID t) pid); [contradiction | exact IH].
Qed.

(** X7. [getMainThreadOfPID] succeeds exactly when the snapshot holds a
    thread owned by the process and [OpenThread] succeeds on the first
    such thread, whose handle it returns; threads owned by the process
    further down the snapshot are never tried. If no thread of the
    snapshot is owned by the process it returns the error that ended the
    enumeration. *)
Theorem getMainThreadOfPID_first_owned_thread :
  forall (l : launch) (pid : Z) (entries : list ThreadEntry32),
    snapshot l = inl entries ->
    (forall h,
        getMainThreadOfPID l pid = (h, None) <->
        exists front e back,
          entries = front ++ e :: back /\
          Forall (fun t => OwnerProcessID t <> pid) front /\
          OwnerProcessID e = pid /\
          openThread e = inl h) /\
    (Forall (fun t => OwnerProcessID t <> pid) entries ->
     getMainThreadOfPID l pid = (0, Some (ErrSyscall ERROR_NO_MORE_FILES))).
Proof.
  intros l pid entries Hsnap. unfold getMainThreadOfPID. rewrite Hsnap.
  split.
  - intros h. apply getMainThreadOfPID_scan_found.
  - apply getMainThreadOfPID_scan_missing.
Qed.

Lemma getMainThreadOfPID_first_owned_thread_witness :
  getMainThreadOfPID (clean_launch 10 3 4 0) 4242 = (9, None) /\
  getMainThreadOfPID (clean_launch 10 3 4 0) 5
  = (0, Some (ErrSyscall ERROR_NO_MORE_FILES)).
Proof.
  destruct (getMainThreadOfPID_first_owned_thread (clean_launch 10 3 4 0)
              4242 _ eq_refl) as [Hfound _].
  destruct (getMainThreadOfPID_first_owned_thread (clean_launch 10 3 4 0)
              5 _ eq_refl) as [_ Hmissing].
  split.
  - apply Hfound.
    exists [mkThreadEntry 4 1 (inl 5)], (mkThreadEntry 4242 2 (inl 9)), [].
    repeat split; try reflexivity.
    repeat constructor. cbn. intros Hc. discriminate Hc.
  - apply Hmissing. repeat constructor; cbn; intros Hc; discriminate Hc.
Defined.

(* ================================================================== *)
(** ** The Windows timer: the order of the system calls *)

Lemma getMainThreadOfPID_scan_calls_plain (entries : list ThreadEntry32)
  (pid : Z) :
  existsb is_terminate (getMainThreadOfPID_scan_calls entries pid) = false /\
  existsb is_resume_or_wait (getMainThreadOfPID_scan_calls entries pid)
  = false.
Proof.
  induction entries as [| t entries IH]; cbn [getMainThreadOfPID_scan_calls];
    [split; reflexivity |].
  destruct (OwnerProcessID t =? pid); [split; reflexivity | exact IH].
Qed.

Lemma getMainThreadOfPID_calls_plain (l : launch) (hSnapshot : handle)
  (pid : Z) :
  existsb is_terminate (getMainThreadOfPID_calls l hSnapshot pid) = false /\
  existsb is_resume_or_wait (getMainThreadOfPID_calls l hSnapshot pid)
  = false.
Proof.
  unfold getMainThreadOfPID_calls.
  destruct (snapshot l) as [entries | errno]; [| split; reflexivity].
  destruct (getMainThreadOfPID_scan_calls_plain entries pid) as [Ht Hr].
  cbn [existsb is_terminate is_resume_or_wait orb].
  rewrite !existsb_app, Ht, Hr. split; reflexivity.
Qed.

(** X8. Once [CreateJobObject] has succeeded, every way out of [Run],
    with or without an error, ends with [terminateJobObject] on that job,
    called once and after all other calls; the job's handle is closed
    only if [TerminateJobObject] itself succeeds. If the process cannot
    be started or the job cannot be created, no job is terminated. *)
Theorem windowsTimer_Run_ends_with_job_teardown :
  forall (l : launch) (hSnapshot : handle) (terminate_err : option Z),
    (forall job,
        start_err l = None -> createJob l = inl job ->
        exists before,
          windowsTimer_Run_calls l hSnapshot terminate_err
          = before ++ terminateJobObject_calls job terminate_err /\
          existsb is_terminate before = false) /\
    (start_err l <> None \/ (exists errno, createJob l = inr errno) ->
     existsb is_terminate (windowsTimer_Run_calls l hSnapshot terminate_err)
     = false).
Proof.
  intros l hSnapshot terminate_err. unfold windowsTimer_Run_calls. split.
  - intros job Hstart Hjob. rewrite Hstart, Hjob.
    eexists. split; [rewrite !app_comm_cons; reflexivity |].
    destruct (getMainThreadOfPID_calls_plain l hSnapshot (Pid l))
      as [Ht _].
    cbn [existsb is_terminate orb].
    destruct (openProcess l); [| reflexivity].
    destruct (assign_err l); [reflexivity |].
    cbn [existsb is_terminate orb]. rewrite existsb_app, Ht. cbn [orb].
    destruct (getMainThreadOfPID l (Pid l)) as [hThread [e |]];
      [reflexivity |].
    destruct (cmd_Wait (wait_res l)); reflexivity.
  - intros [Hstart | [errno Hjob]].
    + destruct (start_err l); [reflexivity | contradiction].
    + rewrite Hjob. destruct (start_err l); reflexivity.
Qed.

Lemma windowsTimer_Run_ends_with_job_teardown_witness :
  exists before,
    windowsTimer_Run_calls (clean_launch 10 3 4 1) 6 None
    = before ++ terminateJobObject_calls 7 None /\
    existsb is_terminate before = false.
Proof.
  apply (proj1 (windowsTimer_Run_ends_with_job_teardown
                  (clean_launch 10 3 4 1) 6 None) 7);
    reflexivity.
Defined.

(** X9. The child, which is started suspended, is resumed and waited for
    exactly when the job was created, the process was opened and assigned
    to the job and its main thread was found: [ResumeThread] always comes
    after [AssignProcessToJobObject]. On any earlier failure [Run]
    returns without ever resuming or waiting for the child it has
    started; and when the assignment fails, the handle from
    [OpenProcess] is not closed. *)
Theorem windowsTimer_Run_resumes_only_inside_job :
  forall (l : launch) (hSnapshot : handle) (terminate_err : option Z),
    start_err l = None ->
    (existsb is_resume_or_wait
       (windowsTimer_Run_calls l hSnapshot terminate_err) = true <->
     exists job hProcess hThread,
       createJob l = inl job /\ openProcess l = inl hProcess /\
       assign_err l = None /\
       getMainThreadOfPID l (Pid l) = (hThread, None) /\
       exists before after,
         windowsTimer_Run_calls l hSnapshot terminate_err
         = before ++ CallResumeThread hThread :: CallWait :: after /\
         In (CallAssignProcessToJobObject job hProcess) before /\
         existsb is_resume_or_wait before = false) /\
    (forall job hProcess errno,
        createJob l = inl job -> openProcess l = inl hProcess ->
        assign_err l = Some errno -> hProcess <> job ->
        ~ In (CallCloseHandle hProcess)
            (windowsTimer_Run_calls l hSnapshot terminate_err)).
Proof.
  intros l hSnapshot terminate_err Hstart.
  unfold windowsTimer_Run_calls. rewrite Hstart.
  destruct (getMainThreadOfPID_calls_plain l hSnapshot (Pid l))
    as [_ Hplain].
  split.
  - split.
    + destruct (createJob l) as [job | e1]; [| discriminate].
      destruct (openProcess l) as [hProcess | e2];
        [| destruct terminate_err; discriminate].
      destruct (assign_err l) as [e3 |];
        [destruct terminate_err; discriminate |].
      destruct (getMainThreadOfPID l (Pid l)) as [hThread [e4 |]].
      * intros Hc. exfalso. revert Hc.
        cbn [existsb is_resume_or_wait orb app].
        rewrite !existsb_app, Hplain.
        destruct terminate_err; discriminate.
      * intros _. exists job, hProcess, hThread.
        repeat split; try reflexivity.
        exists ([CallStart; CallCreateJobObject; CallOpenProcess (Pid l);
                 CallAssignProcessToJobObject job hProcess;
                 CallCloseHandle hProcess]
                ++ getMainThreadOfPID_calls l hSnapshot (Pid l)).
        eexists. split; [| split].
        -- cbn [app]. rewrite <- !app_assoc. cbn [app]. reflexivity.
        -- cbn [app In]. auto 10.
        -- rewrite existsb_app, Hplain. reflexivity.
    + intros (job & hProcess & hThread & Hjob & Hopen & Hassign & Hthread
              & _).
      rewrite Hjob, Hopen, Hassign, Hthread.
      cbn [existsb is_resume_or_wait orb app].
      rewrite !existsb_app, Hplain. cbn [existsb is_resume_or_wait orb].
      reflexivity.
  - intros job hProcess errno Hjob Hopen Hassign Hne.
    rewrite Hjob, Hopen, Hassign. unfold terminateJobObject_calls.
    cbn [app In]. intros Hin.
    destruct terminate_err;
      repeat (destruct Hin as [Hin | Hin]; [try discriminate Hin |]);
      try contradiction;
      inversion Hin; subst; contradiction.
Qed.

Lemma windowsTimer_Run_resumes_only_inside_job_witness :
  existsb is_resume_or_wait
    (windowsTimer_Run_calls (clean_launch 10 3 4 0) 6 None) = true /\
  ~ In (CallCloseHandle 8)
      (windowsTimer_Run_calls
         (mkLaunch None 4242 (inl 7) (inl 8) (Some 5) (inl []) (Exited 0)
            10 None 3 4) 6 None).
Proof.
  split.
  - apply (proj1 (windowsTimer_Run_resumes_only_inside_job
                    (clean_launch 10 3 4 0) 6 None eq_refl)).
    exists 7, 8, 9. repeat split; try reflexivity.
    exists [CallStart; CallCreateJobObject; CallOpenProcess 4242;
            CallAssignProcessToJobObject 7 8; CallCloseHandle 8;
            CallCreateToolhelp32Snapshot; CallOpenThread 2;
            CallCloseHandle 6].
    eexists. split; [reflexivity |]. split; [| reflexivity].
    cbn [In]. auto 10.
  - apply (proj2 (windowsTimer_Run_resumes_only_inside_job
                    (mkLaunch None 4242 (inl 7) (inl 8) (Some 5) (inl [])
                       (Exited 0) 10 None 3 4) 6 None eq_refl)
             7 8 5);
      try reflexivity.
    intros Hc. discriminate Hc.
Defined.

(* ================================================================== *)
(** ** The runner: warmup, failures and bad run counts *)

Lemma warmup_loop_all_succeed (env : nat -> launch) (n : nat) :
  forall k,
    (forall i, (i < n)%nat -> cmd_Run (env (k + i)%nat) = None) ->
    warmup_loop env n k = ((k + n)%nat, None).
Proof.
  induction n as [| n IH]; intros k Hok; cbn [warmup_loop].
  - rewrite Nat.add_0_r. reflexivity.
  - pose proof (Hok 0%nat ltac:(lia)) as H0. rewrite Nat.add_0_r in H0.
    rewrite H0, IH.
    + f_equal. lia.
    + intros i Hi. replace (S k + i)%nat with (k + S i)%nat by lia.
      apply Hok. lia.
Qed.

Lemma warmup_loop_fails_at (env : nat -> launch) (err : error) (j : nat) :
  forall n k,
    (j < n)%nat ->
    (forall i, (i < j)%nat -> cmd_Run (env (k + i)%nat) = None) ->
    cmd_Run (env (k + j)%nat) = Some err ->
    warmup_loop env n k = ((k + j + 1)%nat, Some err).
Proof.
  induction j as [| j IH]; intros n k Hj Hok Herr;
    (destruct n as [| n]; [lia |]); cbn [warmup_loop].
  - rewrite Nat.add_0_r in Herr. rewrite Herr. f_equal. lia.
  - pose proof (Hok 0%nat ltac:(lia)) as H0. rewrite Nat.add_0_r in H0.
    rewrite H0, (IH n (S k)).
    + f_equal. lia.
    + lia.
    + intros i Hi. replace (S k + i)%nat with (k + S i)%nat by lia.
      apply Hok. lia.
    + replace (S k + j)%nat with (k + S j)%nat by lia. exact Herr.
Qed.

(** X10. When the warmup run number [j] (counting from zero) is the
    first to fail, [runBenchmark] returns its error for any timer and any
    run count, even zero or negative: it has launched [j + 1] processes,
    has not touched the timer, has printed no progress line and has made
    no measurement. *)
Theorem runBenchmark_warmup_failure :
  forall (T : Type) (TM : timer T) (env : nat -> launch) (con : console)
         (runs warmup : Z)
         (cmd : gostring) (w : world T) (j : nat) (err : error),
    (j < Z.to_nat warmup)%nat ->
    (forall i, (i < j)%nat -> cmd_Run (env (launched w + i)%nat) = None) ->
    cmd_Run (env (launched w + j)%nat) = Some err ->
    runBenchmark env con runs warmup cmd w
    = Done (mkWorld (launched w + j + 1)%nat (processTimer w) (printed w),
            Err err).
Proof.
  intros T TM env con runs warmup cmd w j err Hj Hok Herr.
  unfold runBenchmark.
  destruct (list2Cmdline_cons cmd) as (name & args & ->).
  unfold runBenchmark_parts.
  rewrite (warmup_loop_fails_at env err j _ _ Hj Hok Herr).
  reflexivity.
Qed.

Lemma runBenchmark_warmup_failure_witness :
  runBenchmark (failing_env 1) wide_console 0 3 sample_cmd fresh_world
  = Done (mkWorld 2%nat (mkWindowsTimer 0 0 0 0) [], Err (ErrExit 1)).
Proof.
  apply (runBenchmark_warmup_failure windowsTimer windowsTimer_timer
           (failing_env 1) wide_console 0 3 sample_cmd fresh_world 1
           (ErrExit 1)).
  - simpl. lia.
  - intros i Hi. replace i with 0%nat by lia. reflexivity.
  - reflexivity.
Defined.

(** X11. With a negative run count and warmup runs that succeed,
    [runBenchmark] panics when it allocates the sample slice, after the
    warmup processes have already been run. *)
Theorem runBenchmark_negative_runs_panics :
  forall (T : Type) (TM : timer T) (env : nat -> launch) (con : console)
         (runs warmup : Z)
         (cmd : gostring) (w : world T),
    runs < 0 ->
    (forall i, (i < Z.to_nat warmup)%nat ->
               cmd_Run (env (launched w + i)%nat) = None) ->
    runBenchmark env con runs warmup cmd w = Panicked MakeSliceLenOutOfRange.
Proof.
  intros T TM env con runs warmup cmd w Hneg Hok. unfold runBenchmark.
  destruct (list2Cmdline_cons cmd) as (name & args & ->).
  unfold runBenchmark_parts.
  rewrite (warmup_loop_all_succeed env _ _ Hok). cbn [fst snd].
  unfold make_slice.
  destruct (Z.ltb_spec runs 0) as [_ | Hge]; [reflexivity | lia].
Qed.

Lemma runBenchmark_negative_runs_panics_witness :
  runBenchmark steady_env wide_console (-3) 2 sample_cmd fresh_world
  = Panicked MakeSliceLenOutOfRange.
Proof.
  apply (runBenchmark_negative_runs_panics windowsTimer windowsTimer_timer
           steady_env wide_console (-3) 2 sample_cmd fresh_world).
  - lia.
  - intros i Hi. reflexivity.
Defined.

Lemma runBenchmark_Ok_inv :
  forall (T : Type) (TM : timer T) (env : nat -> launch) (con : console)
         (runs warmup : Z)
         (cmd : gostring) (w w' : world T) (r : benchmarkResult),
    runBenchmark env con runs warmup cmd w = Done (w', Ok r) ->
    r_cmd r = cmd /\ 1 <= runs.
Proof.
  intros T TM env con runs warmup cmd w w' r. unfold runBenchmark.
  destruct (list2Cmdline cmd) as [| name args]; [discriminate |].
  unfold runBenchmark_parts.
  destruct (snd (warmup_loop env (Z.to_nat warmup) (launched w)));
    [discriminate |].
  unfold make_slice. destruct (Z.ltb_spec runs 0) as [| Hge];
    [discriminate |].
  cbn [bind].
  destruct (measure_loop env con runs name args (Z.to_nat runs) 0 _ _)
    as [[[m w2] [e |]] | p]; cbn [bind]; try discriminate.
  unfold aggregate, div64.
  destruct (Z.eqb_spec runs 0) as [| Hnz]; [discriminate |].
  cbn [bind].
  repeat match goal with
         | |- context [getMeasurementMetrics ?x] =>
             destruct (getMeasurementMetrics x); cbn [bind];
             [| discriminate]
         end.
  intros Heq. inversion Heq; subst. cbn [r_cmd]. split; [reflexivity | lia].
Qed.

(** X12. [runBenchmark] returns a result only for a run count of at least
    one, and the result then carries the command string it was given,
    unchanged; this holds for every timer and environment. *)
Theorem runBenchmark_result_names_command :
  forall (T : Type) (TM : timer T) (env : nat -> launch) (con : console)
         (runs warmup : Z)
         (cmd : gostring) (w w' : world T) (r : benchmarkResult),
    runBenchmark env con runs warmup cmd w = Done (w', Ok r) ->
    r_cmd r = cmd /\ 1 <= runs.
Proof.
  intros T TM env con runs warmup cmd w w' r Hrun.
  exact (runBenchmark_Ok_inv T TM env con runs warmup cmd w w' r Hrun).
Qed.

Lemma runBenchmark_result_names_command_witness :
  exists w' r,
    runBenchmark steady_env wide_console 2 0 sample_cmd fresh_world
    = Done (w', Ok r) /\
    r_cmd r = sample_cmd /\ 1 <= 2.
Proof.
  do 2 eexists.
  refine ((fun H => conj H
             (runBenchmark_result_names_command windowsTimer
                windowsTimer_timer steady_env wide_console 2 0 sample_cmd
                fresh_world _ _ H)) _).
  vm_compute. reflexivity.
Defined.

(* ================================================================== *)
(** ** The runner: a failing measured run, and the totals of a good one *)

Lemma wrap64_add_idemp_r (a c : Z) : wrap64 (a + wrap64 c) = wrap64 (a + c).
Proof.
  rewrite Z.add_comm, wrap64_add_idemp_l, Z.add_comm. reflexivity.
Qed.

Section WindowsRuns.

Variable env : nat -> launch.
Variable con : console.
Variable runs : Z.
Variables (name : gostring) (args : list gostring).

(** One iteration on a launch that succeeds, with the totals and the
    timer it leaves. *)
Lemma measure_body_good_totals (i : Z) (m : measuring)
  (w : world windowsTimer) (front back : list Z) (old : Z) :
  good (env (launched w)) ->
  elapsedRuns m = front ++ old :: back ->
  i = Z.of_nat (List.length front) ->
  i < MaxInt64 ->
  can_draw con runs ->
  i < runs ->
  exists m' w',
    measure_body env con runs name args i m w = Done (m', w', None) /\
    elapsedRuns m' = front ++ elapsed (env (launched w)) :: back /\
    totalUserTime m'
    = wrap64 (totalUserTime m + TotalUserTime (env (launched w)) * 100) /\
    totalKernelTime m'
    = wrap64 (totalKernelTime m + TotalKernelTime (env (launched w)) * 100) /\
    launched w' = S (launched w) /\
    List.length (printed w') = S (List.length (printed w)) /\
    windowsTimer_GetRealTime (processTimer w') = elapsed (env (launched w)).
Proof.
  intros Hgood Hruns Hi Hmax Hdraw Hlt.
  assert (Hidx : 0 <= i < MaxInt64) by lia.
  assert (Hir : 0 <= i < runs) by lia.
  unfold measure_body.
  cbn [Run Reset GetRealTime GetUserTime GetKernelTime windowsTimer_timer].
  rewrite (windowsTimer_Run_good _ _ _ _ Hgood). cbn [fst snd].
  unfold windowsTimer_GetRealTime, windowsTimer_GetUserTime,
    windowsTimer_GetKernelTime.
  cbn [realTime userTime kernelTime].
  unfold slice_set, slice_get. rewrite Hruns.
  assert (Hin : (0 <=? i) &&
                (i <? Z.of_nat (List.length (front ++ old :: back))) = true).
  { rewrite length_app. cbn [List.length].
    apply andb_true_iff. split; [apply Z.leb_le | apply Z.ltb_lt]; lia. }
  rewrite Hin. cbn [bind].
  replace (Z.to_nat i) with (List.length front) by lia.
  rewrite update_middle.
  assert (Hin' : (0 <=? i) &&
    (i <? Z.of_nat
            (List.length (front ++ elapsed (env (launched w)) :: back)))
                 = true).
  { rewrite length_app. cbn [List.length].
    apply andb_true_iff. split; [apply Z.leb_le | apply Z.ltb_lt]; lia. }
  rewrite Hin'. cbn [bind]. rewrite nth_middle_Z.
  rewrite (updateRunningMean_done _ _ _ Hidx). cbn [bind].
  destruct (getMeasurementMetrics_total
              (wrap64 (Z.quot
                 (add (mul (currentEstimate m) i)
                      (elapsed (env (launched w)))) (i + 1)))
              (wrap64_in_range _)) as [metrics Hmet].
  rewrite Hmet. cbn [bind].
  rewrite (add_succ_index i Hidx). draw_line Hdraw i Hir.
  do 2 eexists. split; [reflexivity |].
  cbn [elapsedRuns totalUserTime totalKernelTime launched printed
       processTimer realTime].
  unfold add, mul, HundredNSTicks. rewrite !wrap64_add_idemp_r.
  rewrite length_app. cbn [List.length].
  repeat split; try reflexivity. lia.
Qed.

(** The loop when its first [j] launches succeed and the next one does
    not. *)
Lemma measure_loop_fails_at (j rest : nat) :
  forall (front : list Z) (i : Z) (m : measuring) (w : world windowsTimer),
    (forall t, (t < j)%nat -> good (env (launched w + t))) ->
    ~ good (env (launched w + j)) ->
    elapsedRuns m = front ++ repeat 0 (j + S rest) ->
    i = Z.of_nat (List.length front) ->
    i + Z.of_nat (j + S rest) <= MaxInt64 ->
    can_draw con runs ->
    i + Z.of_nat (j + S rest) <= runs ->
    exists m' w' err,
      measure_loop env con runs name args (j + S rest) i m w
      = Done (m', w', Some err) /\
      launched w' = (launched w + j + 1)%nat /\
      List.length (printed w') = (List.length (printed w) + j)%nat.
Proof.
  induction j as [| j IH];
    intros front i m w Hgood Hbad Hruns Hi Hmax Hdraw Hupto.
  - rewrite Nat.add_0_r in Hbad. cbn [Nat.add measure_loop].
    unfold measure_body. cbn [Run Reset windowsTimer_timer].
    destruct (snd (windowsTimer_Run (env (launched w)) name args
                     (windowsTimer_Reset (processTimer w)))) as [err |]
      eqn:Herr.
    + cbn [bind]. do 3 eexists. split; [reflexivity |].
      cbn [launched printed]. split; lia.
    + apply windowsTimer_Run_ok_iff in Herr. contradiction.
  - cbn [Nat.add repeat] in Hruns.
    assert (Hg0 : good (env (launched w))).
    { specialize (Hgood 0%nat ltac:(lia)). rewrite Nat.add_0_r in Hgood.
      exact Hgood. }
    destruct (measure_body_good_totals i m w front (repeat 0 (j + S rest)) 0
                Hg0 Hruns Hi ltac:(lia) Hdraw ltac:(lia))
      as (m1 & w1 & Hbody & Hruns1 & _ & _ & Hl1 & Hp1 & _).
    assert (Hidx : 0 <= i < MaxInt64) by lia.
    destruct (IH (front ++ [elapsed (env (launched w))]) (add i 1) m1 w1)
      as (m' & w' & err & Hloop & Hl' & Hp').
    + intros t Ht. rewrite Hl1.
      replace (S (launched w) + t)%nat with (launched w + S t)%nat by lia.
      apply Hgood. lia.
    + rewrite Hl1.
      replace (S (launched w) + j)%nat with (launched w + S j)%nat by lia.
      exact Hbad.
    + rewrite Hruns1, <- app_assoc. reflexivity.
    + rewrite (add_succ_index i Hidx), length_app. cbn [List.length]. lia.
    + rewrite (add_succ_index i Hidx). lia.
    + exact Hdraw.
    + rewrite (add_succ_index i Hidx). lia.
    + exists m', w', err. cbn [Nat.add measure_loop]. rewrite Hbody.
      cbn [bind]. split; [exact Hloop |]. split; lia.
Qed.

(** The loop when all launches succeed, with the totals it accumulates. *)
Lemma measure_loop_good_totals (n : nat) :
  forall (front : list Z) (i : Z) (m : measuring) (w : world windowsTimer),
    (forall j, (j < n)%nat -> good (env (launched w + j))) ->
    elapsedRuns m = front ++ repeat 0 n ->
    i = Z.of_nat (List.length front) ->
    i + Z.of_nat n <= MaxInt64 ->
    in_range (totalUserTime m) -> in_range (totalKernelTime m) ->
    can_draw con runs ->
    i + Z.of_nat n <= runs ->
    exists m' w',
      measure_loop env con runs name args n i m w = Done (m', w', None) /\
      elapsedRuns m' = front ++ samples_of env (launched w) n /\
      totalUserTime m'
      = wrap64 (totalUserTime m
                + 100 * sumZ (user_ticks_of env (launched w) n)) /\
      totalKernelTime m'
      = wrap64 (totalKernelTime m
                + 100 * sumZ (kernel_ticks_of env (launched w) n)) /\
      launched w' = (launched w + n)%nat /\
      List.length (printed w') = (List.length (printed w) + n)%nat.
Proof.
  induction n as [| n IH];
    intros front i m w Hgood Hruns Hi Hmax Hu Hk Hdraw Hupto.
  - exists m, w.
    cbn [measure_loop samples_of user_ticks_of kernel_ticks_of seq map
         sumZ fold_right].
    cbn [repeat] in Hruns. rewrite app_nil_r in *.
    rewrite !Z.mul_0_r, !Z.add_0_r, !Nat.add_0_r.
    rewrite (wrap64_small _ Hu), (wrap64_small _ Hk).
    repeat split; auto.
  - cbn [repeat] in Hruns.
    assert (Hg0 : good (env (launched w))).
    { specialize (Hgood 0%nat ltac:(lia)). rewrite Nat.add_0_r in Hgood.
      exact Hgood. }
    destruct (measure_body_good_totals i m w front (repeat 0 n) 0 Hg0 Hruns
                Hi ltac:(lia) Hdraw ltac:(lia))
      as (m1 & w1 & Hbody & Hruns1 & Hu1 & Hk1 & Hl1 & Hp1 & _).
    assert (Hidx : 0 <= i < MaxInt64) by lia.
    destruct (IH (front ++ [elapsed (env (launched w))]) (add i 1) m1 w1)
      as (m' & w' & Hloop & Hruns' & Hu' & Hk' & Hl' & Hp').
    + intros j Hj. rewrite Hl1.
      replace (S (launched w) + j)%nat with (launched w + S j)%nat by lia.
      apply Hgood. lia.
    + rewrite Hruns1, <- app_assoc. reflexivity.
    + rewrite (add_succ_index i Hidx), length_app. cbn [List.length]. lia.
    + rewrite (add_succ_index i Hidx). lia.
    + rewrite Hu1. apply wrap64_in_range.
    + rewrite Hk1. apply wrap64_in_range.
    + exact Hdraw.
    + rewrite (add_succ_index i Hidx). lia.
    + exists m', w'. cbn [measure_loop]. rewrite Hbody. cbn [bind].
      rewrite Hl1 in *.
      cbn [samples_of user_ticks_of kernel_ticks_of seq map sumZ
           fold_right].
      fold (samples_of env (S (launched w)) n).
      fold (user_ticks_of env (S (launched w)) n).
      fold (kernel_ticks_of env (S (launched w)) n).
      fold (sumZ (user_ticks_of env (S (launched w)) n)).
      fold (sumZ (kernel_ticks_of env (S (launched w)) n)).
      split; [exact Hloop |].
      split; [rewrite Hruns', <- app_assoc; reflexivity |].
      split; [| split; [| split; lia]].
      * rewrite Hu', Hu1, wrap64_add_idemp_l. f_equal. lia.
      * rewrite Hk', Hk1, wrap64_add_idemp_l. f_equal. lia.
Qed.

End WindowsRuns.

(** X13. When the warmup runs succeed, every progress line can be drawn
    and the measured run number [j] (counting from zero) is the first
    that the Windows timer cannot complete, [runBenchmark] returns an
    error and no result: the samples of the [j] runs already measured are
    dropped, no further process is launched after the failing one, and
    exactly [j] progress lines have been printed. *)
Theorem runBenchmark_measured_failure :
  forall (env : nat -> launch) (con : console) (runs warmup : Z)
         (cmd : gostring) (w : world windowsTimer) (j : nat),
    1 <= runs <= MaxInt64 ->
    can_draw con runs ->
    (forall i, (i < Z.to_nat warmup)%nat ->
               cmd_Run (env (launched w + i)%nat) = None) ->
    (j < Z.to_nat runs)%nat ->
    (forall t, (t < j)%nat ->
               good (env (launched w + Z.to_nat warmup + t)%nat)) ->
    ~ good (env (launched w + Z.to_nat warmup + j)%nat) ->
    exists w' err,
      runBenchmark env con runs warmup cmd w = Done (w', Err err) /\
      launched w' = (launched w + Z.to_nat warmup + j + 1)%nat /\
      List.length (printed w') = (List.length (printed w) + j)%nat.
Proof.
  intros env con runs warmup cmd w j Hruns Hdraw Hwarm Hj Hgood Hbad.
  unfold runBenchmark.
  destruct (list2Cmdline_cons cmd) as (name & args & ->).
  unfold runBenchmark_parts.
  rewrite (warmup_loop_all_succeed env _ _ Hwarm). cbn [fst snd].
  unfold make_slice. destruct (Z.ltb_spec runs 0) as [Hneg | _]; [lia |].
  cbn [bind].
  replace (Z.to_nat runs) with (j + S (Z.to_nat runs - j - 1))%nat by lia.
  destruct (measure_loop_fails_at env con runs name args j
              (Z.to_nat runs - j - 1) [] 0
              (mkMeasuring 0 0 0
                 (repeat 0 (j + S (Z.to_nat runs - j - 1))))
              (mkWorld (launched w + Z.to_nat warmup)%nat (processTimer w)
                 (printed w)))
    as (m' & w' & err & Hloop & Hl & Hp).
  - exact Hgood.
  - exact Hbad.
  - reflexivity.
  - reflexivity.
  - lia.
  - exact Hdraw.
  - lia.
  - rewrite Hloop. cbn [bind]. exists w', err.
    cbn [launched printed] in Hl, Hp. auto.
Qed.

Lemma runBenchmark_measured_failure_witness :
  exists w' err,
    runBenchmark (failing_env 3) wide_console 5 1 sample_cmd fresh_world
    = Done (w', Err err) /\
    launched w' = (0 + 1 + 2 + 1)%nat /\
    List.length (printed w') = (0 + 2)%nat.
Proof.
  apply (runBenchmark_measured_failure (failing_env 3) wide_console 5 1
           sample_cmd fresh_world 2).
  - unfold MaxInt64. lia.
  - draw_wide.
  - intros i Hi. replace i with 0%nat by (simpl in Hi; lia). reflexivity.
  - simpl. lia.
  - intros t Ht.
    destruct t as [| [| t]]; [split; reflexivity | split; reflexivity | lia].
  - intros [_ Hexit]. discriminate Hexit.
Defined.

(** X14. When the warmup runs and every measured run succeed on the
    Windows timer and every progress line can be drawn, [runBenchmark]
    launches exactly [warmup + runs] processes and prints exactly [runs]
    progress lines; provided the totals fit in [int64], the reported user
    and kernel times are the means over the measured runs of the job's
    accounting totals, taken as 100 ns ticks, in nanoseconds and
    truncated, with the warmup runs left out; and each of the two gets
    its unit from its own mean. *)
Theorem runBenchmark_success_effects :
  forall (env : nat -> launch) (con : console) (runs warmup : Z)
         (cmd : gostring) (w : world windowsTimer),
    1 <= runs <= MaxInt64 ->
    can_draw con runs ->
    (forall i, (i < Z.to_nat warmup)%nat ->
               cmd_Run (env (launched w + i)%nat) = None) ->
    (forall j, (j < Z.to_nat runs)%nat ->
               good (env (launched w + Z.to_nat warmup + j)%nat)) ->
    let first := (launched w + Z.to_nat warmup)%nat in
    in_range (100 * sumZ (user_ticks_of env first (Z.to_nat runs))) ->
    in_range (100 * sumZ (kernel_ticks_of env first (Z.to_nat runs))) ->
    exists w' r,
      runBenchmark env con runs warmup cmd w = Done (w', Ok r) /\
      launched w' = (first + Z.to_nat runs)%nat /\
      List.length (printed w')
      = (List.length (printed w) + Z.to_nat runs)%nat /\
      r_meanUserTime r
      = Z.quot (100 * sumZ (user_ticks_of env first (Z.to_nat runs))) runs /\
      r_meanKernelTime r
      = Z.quot (100 * sumZ (kernel_ticks_of env first (Z.to_nat runs)))
          runs /\
      getMeasurementMetrics (r_meanUserTime r)
      = Done (r_userDenominator r, r_userUnit r) /\
      getMeasurementMetrics (r_meanKernelTime r)
      = Done (r_kernelDenominator r, r_kernelUnit r).
Proof.
  intros env con runs warmup cmd w Hruns Hdraw Hwarm Hgood first Hu Hk.
  unfold runBenchmark.
  destruct (list2Cmdline_cons cmd) as (name & args & ->).
  unfold runBenchmark_parts.
  rewrite (warmup_loop_all_succeed env _ _ Hwarm). cbn [fst snd].
  fold first.
  unfold make_slice. destruct (Z.ltb_spec runs 0) as [Hneg | _]; [lia |].
  cbn [bind].
  destruct (measure_loop_good_totals env con runs name args (Z.to_nat runs)
              [] 0
              (mkMeasuring 0 0 0 (repeat 0 (Z.to_nat runs)))
              (mkWorld first (processTimer w) (printed w)))
    as (m & w' & Hloop & _ & Hut & Hkt & Hl & Hp);
    try reflexivity; try exact Hgood; try exact Hdraw; try lia;
    try (cbn; unfold in_range, MinInt64, MaxInt64; lia).
  cbn [launched printed totalUserTime totalKernelTime] in *.
  rewrite Z.add_0_l in Hut, Hkt.
  rewrite (wrap64_small _ Hu) in Hut. rewrite (wrap64_small _ Hk) in Hkt.
  rewrite Hloop. cbn [bind]. unfold aggregate, div64.
  destruct (Z.eqb_spec runs 0) as [Hz | _]; [lia |].
  cbn [bind]. rewrite Hut, Hkt.
  rewrite (wrap64_small (Z.quot (100 * sumZ (user_ticks_of _ _ _)) runs))
    by (apply quot_in_range; [exact Hu | lia]).
  rewrite (wrap64_small (Z.quot (100 * sumZ (kernel_ticks_of _ _ _)) runs))
    by (apply quot_in_range; [exact Hk | lia]).
  destruct (getMeasurementMetrics_total
              (wrap64 (Z.quot (snd (aggregate_loop (elapsedRuns m))) runs))
              (wrap64_in_range _)) as [real Hreal].
  destruct (getMeasurementMetrics_total
              (Z.quot (100 * sumZ (user_ticks_of env first (Z.to_nat runs)))
                 runs)
              (quot_in_range _ runs Hu ltac:(lia))) as [[ud uu] Huser].
  destruct (getMeasurementMetrics_total
              (Z.quot (100 * sumZ (kernel_ticks_of env first (Z.to_nat runs)))
                 runs)
              (quot_in_range _ runs Hk ltac:(lia))) as [[kd ku] Hkernel].
  rewrite Hreal, Huser, Hkernel. cbn [bind fst snd].
  do 2 eexists. split; [reflexivity |].
  cbn [r_meanUserTime r_meanKernelTime r_userDenominator r_userUnit
       r_kernelDenominator r_kernelUnit].
  repeat split; auto.
Qed.

Lemma runBenchmark_success_effects_witness :
  exists w' r,
    runBenchmark steady_env wide_console 5 2 sample_cmd fresh_world
    = Done (w', Ok r) /\
    launched w' = (0 + 2 + 5)%nat /\
    List.length (printed w') = (0 + 5)%nat /\
    r_meanUserTime r
    = Z.quot (100 * sumZ (user_ticks_of steady_env (0 + 2) 5)) 5 /\
    r_meanKernelTime r
    = Z.quot (100 * sumZ (kernel_ticks_of steady_env (0 + 2) 5)) 5 /\
    getMeasurementMetrics (r_meanUserTime r)
    = Done (r_userDenominator r, r_userUnit r) /\
    getMeasurementMetrics (r_meanKernelTime r)
    = Done (r_kernelDenominator r, r_kernelUnit r).
Proof.
  apply (runBenchmark_success_effects steady_env wide_console 5 2 sample_cmd
           fresh_world).
  - unfold MaxInt64. lia.
  - draw_wide.
  - intros i Hi. reflexivity.
  - intros j Hj. split; reflexivity.
  - vm_compute. split; intros Hc; discriminate Hc.
  - vm_compute. split; intros Hc; discriminate Hc.
Defined.

(* ================================================================== *)
(** ** [main]: setup, the command loop and the summary *)

Lemma benchmark_all_inv (T : Type) (TM : timer T) (env : nat -> launch)
  (con : console)
  (runs warmup : Z) (cmds : list gostring) :
  forall (results : list benchmarkResult) (errors : list error)
         (w w' : world T) results' errors',
    benchmark_all env con runs warmup cmds results errors w
    = Done (w', results', errors') ->
    exists ok failed,
      results' = results ++ ok /\ errors' = errors ++ failed /\
      (List.length ok + List.length failed)%nat = List.length cmds /\
      Subseq (map r_cmd ok) cmds.
Proof.
  induction cmds as [| cmd cmds IH];
    intros results errors w w' results' errors' Hrun.
  - cbn [benchmark_all] in Hrun. inversion Hrun; subst.
    exists [], []. rewrite !app_nil_r. repeat split. constructor.
  - cbn [benchmark_all] in Hrun.
    destruct (runBenchmark env con runs warmup cmd w)
      as [[w1 [res | err]] | p] eqn:Hone; cbn [bind] in Hrun;
      [| | discriminate].
    + destruct (IH _ _ _ _ _ _ Hrun) as (ok & failed & -> & -> & Hlen & Hsub).
      destruct (runBenchmark_Ok_inv T TM env con runs warmup cmd w w1 res
                  Hone)
        as [Hcmd _].
      exists (res :: ok), failed. rewrite <- !app_assoc. cbn [app].
      repeat split.
      * cbn [List.length]. lia.
      * cbn [map]. rewrite Hcmd. apply Subseq_keep. exact Hsub.
    + destruct (IH _ _ _ _ _ _ Hrun) as (ok & failed & -> & -> & Hlen & Hsub).
      exists ok, (err :: failed). rewrite <- !app_assoc. cbn [app].
      repeat split.
      * cbn [List.length]. lia.
      * apply Subseq_skip. exact Hsub.
Qed.

(** X15. When a setup command is given and fails, [main] stops after that
    one process: no benchmark is run and nothing is measured. When [main]
    completes, every command has been benchmarked once, a failing command
    does not stop the later ones, the collected results are those of the
    commands that succeeded, in the order of the command line, and the
    summary is computed from exactly these results. *)
Theorem main_setup_and_command_loop :
  forall (T : Type) (TM : timer T) (env : nat -> launch) (con : console)
         (runs warmup : Z)
         (setupCmd : gostring) (cmds : list gostring) (w : world T),
    (forall err,
        setupCmd <> [] -> cmd_Run (env (launched w)) = Some err ->
        main env con runs warmup setupCmd cmds w
        = Done (mkWorld (S (launched w)) (processTimer w) (printed w),
                SetupFailed err)) /\
    (forall w' results errors lines,
        main env con runs warmup setupCmd cmds w
        = Done (w', Completed results errors lines) ->
        (List.length results + List.length errors)%nat = List.length cmds /\
        Subseq (map r_cmd results) cmds /\
        lines = summary results).
Proof.
  intros T TM env con runs warmup setupCmd cmds w. split.
  - intros err Hne Hfail. unfold main.
    destruct setupCmd as [| ch setupCmd]; [contradiction |].
    destruct (list2Cmdline_cons (ch :: setupCmd))
      as (name & args & Hparts).
    unfold runSetup. rewrite Hparts. cbn [fst snd]. rewrite Hfail.
    reflexivity.
  - intros w' results errors lines. unfold main.
    destruct (snd _) as [err |]; [discriminate |].
    destruct (benchmark_all env con runs warmup cmds [] [] _)
      as [[[w1 results1] errors1] | p] eqn:Hall; cbn [bind];
      [| discriminate].
    intros Heq. inversion Heq; subst.
    destruct (benchmark_all_inv T TM env con runs warmup cmds _ _ _ _ _ _
                Hall)
      as (ok & failed & Hr & He & Hlen & Hsub).
    cbn [app] in Hr, He. subst. auto.
Qed.

Lemma main_setup_and_command_loop_witness :
  main (failing_env 0) wide_console 2 0 [115] [[97]; [98]] fresh_world
  = Done (mkWorld 1%nat (mkWindowsTimer 0 0 0 0) [],
          SetupFailed (ErrExit 1)) /\
  exists w' results errors lines,
    main (failing_env 0) wide_console 2 0 [] [[97]; [98]; [99]] fresh_world
    = Done (w', Completed results errors lines) /\
    (List.length results + List.length errors)%nat = 3%nat /\
    Subseq (map r_cmd results) [[97]; [98]; [99]] /\
    lines = summary results.
Proof.
  pose proof (main_setup_and_command_loop windowsTimer windowsTimer_timer
                (failing_env 0) wide_console 2 0 [115] [[97]; [98]]
                fresh_world)
    as [Hsetup _].
  pose proof (main_setup_and_command_loop windowsTimer windowsTimer_timer
                (failing_env 0) wide_console 2 0 [] [[97]; [98]; [99]]
                fresh_world)
    as [_ Hloop].
  split.
  - apply Hsetup; [intros Hc; discriminate Hc | reflexivity].
  - do 4 eexists.
    refine ((fun H => conj H (Hloop _ _ _ _ H)) _).
    vm_compute. reflexivity.
Defined.

(** The head of the sorted list is the first element of least mean. *)
Lemma SliceStable_head (results : list benchmarkResult) :
  results <> [] ->
  exists front baseline back others,
    results = front ++ baseline :: back /\
    SliceStable less_mean results = baseline :: others /\
    Forall (fun r => r_mean baseline < r_mean r) front /\
    Forall (fun r => r_mean baseline <= r_mean r) back.
Proof.
  induction results as [| x xs IH]; [contradiction |]. intros _.
  destruct xs as [| y ys].
  - exists [], x, [], []. repeat split; constructor.
  - destruct (IH ltac:(discriminate))
      as (front & baseline & back & others & Heq & Hsorted & Hfront & Hback).
    cbn [SliceStable] in *. rewrite Hsorted. cbn [insert_stable].
    unfold less_mean at 1.
    destruct (Z.ltb_spec (r_mean baseline) (r_mean x)) as [Hlt | Hge].
    + exists (x :: front), baseline, back, (insert_stable less_mean x others).
      rewrite Heq. repeat split; auto.
    + exists [], x, (y :: ys), (baseline :: others).
      repeat split; auto. rewrite Heq. apply Forall_app. split.
      * eapply Forall_impl; [| exact Hfront]. cbv beta. intros r Hr. lia.
      * constructor; [exact Hge |].
        eapply Forall_impl; [| exact Hback]. cbv beta. intros r Hr. lia.
Qed.

(** X16. For two or more results the summary has one line per result.
    Its first line names the baseline, which is the result of least mean
    and, among results of the same least mean, the one given first; every
    other result gets a ratio line, also a result whose mean equals the
    baseline's. *)
Theorem summary_baseline_is_first_fastest :
  forall (results : list benchmarkResult),
    (2 <= List.length results)%nat ->
    List.length (summary results) = List.length results /\
    exists front baseline back others,
      results = front ++ baseline :: back /\
      Forall (fun r => r_mean baseline < r_mean r) front /\
      Forall (fun r => r_mean baseline <= r_mean r) back /\
      Permutation (front ++ back) others /\
      summary results
      = Ran (r_cmd baseline) :: map (expected_line baseline) others.
Proof.
  intros results Hlen.
  destruct (SliceStable_head results)
    as (front & baseline & back & others & Heq & Hsorted & Hfront & Hback).
  { intros ->. simpl in Hlen. lia. }
  assert (Hsum : summary results
                 = Ran (r_cmd baseline) :: map (expected_line baseline) others).
  { unfold summary.
    destruct (Z.ltb_spec 1 (Z.of_nat (List.length results))); [| lia].
    rewrite Hsorted. cbn [fold_left]. unfold summary_step at 2.
    cbn [fst snd app]. rewrite summary_fold_rest. reflexivity. }
  pose proof (SliceStable_perm results) as Hperm.
  rewrite Hsorted in Hperm.
  split.
  - rewrite Hsum. cbn [List.length]. rewrite length_map.
    apply Permutation_length in Hperm. cbn [List.length] in Hperm. lia.
  - exists front, baseline, back, others.
    repeat split; auto.
    rewrite Heq in Hperm.
    apply Permutation_cons_inv with (a := baseline).
    rewrite <- Hperm. apply Permutation_middle.
Qed.

Lemma summary_baseline_is_first_fastest_witness :
  List.length
    (summary [plain_result [115] 100 10%float; plain_result [102] 50 5%float;
              plain_result [116] 50 0%float]) = 3%nat.
Proof.
  apply (proj1 (summary_baseline_is_first_fastest
                  [plain_result [115] 100 10%float;
                   plain_result [102] 50 5%float;
                   plain_result [116] 50 0%float]
                  ltac:(simpl; lia))).
Defined.

(* ================================================================== *)
(** ** The progress bar *)

(** X17. [printProgressLine] panics in [strings.Repeat] whenever the
    terminal is narrower than the text of the line plus 14 columns, for
    every progress value and whatever [int(...)] yields; this includes a
    reported width of 0, which is what is left when [term.GetSize] fails
    and its error is dropped. *)
Theorem printProgressLine_bar_panics_when_narrow :
  forall (int_of_float64 : float64 -> Z) (lineLen : Z) (progress : float64)
         (terminalWidth : Z),
    (forall x, in_range (int_of_float64 x)) ->
    0 <= lineLen <= 2 ^ 32 ->
    0 <= terminalWidth < lineLen + 14 ->
    exists p,
      printProgressLine_bar int_of_float64 lineLen progress terminalWidth
      = RepeatPanicked p.
Proof.
  intros conv lineLen progress terminalWidth Hconv Hline Hwidth.
  unfold printProgressLine_bar. cbv zeta.
  assert (Hadj : sub terminalWidth (add (add lineLen 2) 12)
                 = terminalWidth - (lineLen + 14)).
  { unfold sub, add.
    rewrite (wrap64_small (lineLen + 2))
      by (unfold in_range, MinInt64, MaxInt64; lia).
    rewrite (wrap64_small (lineLen + 2 + 12))
      by (unfold in_range, MinInt64, MaxInt64; lia).
    rewrite wrap64_small by (unfold in_range, MinInt64, MaxInt64; lia).
    lia. }
  rewrite Hadj.
  set (chunks := conv _).
  assert (Hchunks : in_range chunks) by apply Hconv.
  unfold strings_Repeat at 1.
  destruct (Z.ltb_spec chunks 0) as [Hneg | Hpos]; [eauto |].
  destruct (Z.ltb_spec MaxInt64 (3 * chunks)) as [Hover | Hfit]; [eauto |].
  unfold strings_Repeat.
  assert (Hrest : sub (terminalWidth - (lineLen + 14)) chunks < 0).
  { unfold sub. rewrite wrap64_small;
      unfold in_range, MinInt64, MaxInt64 in *; lia. }
  destruct (Z.ltb_spec (sub (terminalWidth - (lineLen + 14)) chunks) 0);
    [eauto | lia].
Qed.

Lemma printProgressLine_bar_panics_when_narrow_witness :
  exists p,
    printProgressLine_bar (fun _ => 0) 30 1%float 0 = RepeatPanicked p.
Proof.
  apply (printProgressLine_bar_panics_when_narrow (fun _ => 0) 30 1%float 0).
  - intros x. unfold in_range, MinInt64, MaxInt64. lia.
  - lia.
  - lia.
Defined.

(** X18. When [printProgressLine] does build its bar, the bar fills the
    terminal width that is left after the text of the line and 14 more
    columns: it is [progressChunks] full blocks followed by shaded blocks
    up to that width, with [0 <= progressChunks <= width]. *)
Theorem printProgressLine_bar_fills_width :
  forall (int_of_float64 : float64 -> Z) (lineLen : Z) (progress : float64)
         (terminalWidth : Z) (bar : gostring),
    (forall x, in_range (int_of_float64 x)) ->
    0 <= lineLen <= 2 ^ 32 ->
    0 <= terminalWidth <= 2 ^ 32 ->
    printProgressLine_bar int_of_float64 lineLen progress terminalWidth
    = Drawn bar ->
    let width := terminalWidth - (lineLen + 14) in
    exists progressChunks,
      0 <= progressChunks <= width /\
      bar = repeat progressDoneRune (Z.to_nat progressChunks)
            ++ repeat progressPendingRune (Z.to_nat (width - progressChunks))
      /\
      Z.of_nat (List.length bar) = width.
Proof.
  intros conv lineLen progress terminalWidth bar Hconv Hline Hwidth.
  unfold printProgressLine_bar. cbv zeta.
  assert (Hadj : sub terminalWidth (add (add lineLen 2) 12)
                 = terminalWidth - (lineLen + 14)).
  { unfold sub, add.
    rewrite (wrap64_small (lineLen + 2))
      by (unfold in_range, MinInt64, MaxInt64; lia).
    rewrite (wrap64_small (lineLen + 2 + 12))
      by (unfold in_range, MinInt64, MaxInt64; lia).
    rewrite wrap64_small by (unfold in_range, MinInt64, MaxInt64; lia).
    lia. }
  rewrite Hadj.
  set (chunks := conv _).
  assert (Hchunks : in_range chunks) by apply Hconv.
  unfold strings_Repeat.
  destruct (Z.ltb_spec chunks 0) as [Hneg | Hpos]; [discriminate |].
  destruct (Z.ltb_spec MaxInt64 (3 * chunks)) as [Hover | Hfit];
    [discriminate |].
  assert (Hsub : sub (terminalWidth - (lineLen + 14)) chunks
                 = terminalWidth - (lineLen + 14) - chunks).
  { unfold sub. apply wrap64_small.
    unfold in_range, MinInt64, MaxInt64 in *. lia. }
  rewrite Hsub.
  destruct (Z.ltb_spec (terminalWidth - (lineLen + 14) - chunks) 0)
    as [Hlow | Hrest]; [discriminate |].
  destruct (Z.ltb_spec MaxInt64
              (3 * (terminalWidth - (lineLen + 14) - chunks)));
    [discriminate |].
  intros Heq. inversion Heq; subst bar. cbv zeta.
  exists chunks. split; [lia |]. split; [reflexivity |].
  rewrite length_app, !repeat_length. lia.
Qed.

Lemma printProgressLine_bar_fills_width_witness :
  exists progressChunks,
    0 <= progressChunks <= 80 - (30 + 14) /\
    repeat progressDoneRune 18 ++ repeat progressPendingRune 18
    = repeat progressDoneRune (Z.to_nat progressChunks)
      ++ repeat progressPendingRune
           (Z.to_nat (80 - (30 + 14) - progressChunks)) /\
    Z.of_nat
      (List.length
         (repeat progressDoneRune 18 ++ repeat progressPendingRune 18))
    = 80 - (30 + 14).
Proof.
  apply (printProgressLine_bar_fills_width (fun _ => 18) 30 0.5%float 80).
  - intros x. unfold in_range, MinInt64, MaxInt64. lia.
  - lia.
  - lia.
  - reflexivity.
Defined.

(* ================================================================== *)
(** ** The runner on a terminal that is too narrow *)

(** The bar cannot be built on a terminal narrower than the text of the
    line plus 14 columns. *)
Lemma printProgressLine_bar_narrow (conv : float64 -> Z) (lineLen : Z)
  (progress : float64) (terminalWidth : Z) :
  (forall x, in_range (conv x)) ->
  0 <= lineLen <= 2 ^ 32 ->
  0 <= terminalWidth < lineLen + 14 ->
  exists p,
    printProgressLine_bar conv lineLen progress terminalWidth
    = RepeatPanicked p.
Proof.
  intros Hconv Hline Hwidth.
  unfold printProgressLine_bar. cbv zeta.
  assert (Hadj : sub terminalWidth (add (add lineLen 2) 12)
                 = terminalWidth - (lineLen + 14)).
  { unfold sub, add.
    rewrite (wrap64_small (lineLen + 2))
      by (unfold in_range, MinInt64, MaxInt64; lia).
    rewrite (wrap64_small (lineLen + 2 + 12))
      by (unfold in_range, MinInt64, MaxInt64; lia).
    rewrite wrap64_small by (unfold in_range, MinInt64, MaxInt64; lia).
    lia. }
  rewrite Hadj.
  set (chunks := conv _).
  assert (Hchunks : in_range chunks) by apply Hconv.
  unfold strings_Repeat at 1.
  destruct (Z.ltb_spec chunks 0) as [Hneg | Hpos]; [eauto |].
  destruct (Z.ltb_spec MaxInt64 (3 * chunks)) as [Hover | Hfit]; [eauto |].
  unfold strings_Repeat.
  assert (Hrest : sub (terminalWidth - (lineLen + 14)) chunks < 0).
  { unfold sub. rewrite wrap64_small;
      unfold in_range, MinInt64, MaxInt64 in *; lia. }
  destruct (Z.ltb_spec (sub (terminalWidth - (lineLen + 14)) chunks) 0);
    [eauto | lia].
Qed.

(** X19. When the warmup runs and the first measured run succeed but the
    terminal is narrower than the text of the progress line plus 14
    columns, as it is with a reported width of 0 when standard output is
    not a terminal, [runBenchmark] panics in [strings.Repeat] while
    printing the first progress line: it returns neither a result nor an
    error. *)
Theorem runBenchmark_panics_when_narrow :
  forall (env : nat -> launch) (con : console) (runs warmup : Z)
         (cmd : gostring) (w : world windowsTimer),
    1 <= runs <= MaxInt64 ->
    (forall i, (i < Z.to_nat warmup)%nat ->
               cmd_Run (env (launched w + i)%nat) = None) ->
    good (env (launched w + Z.to_nat warmup)%nat) ->
    (forall x, in_range (float_to_int con x)) ->
    (forall shown u,
        0 <= line_len con shown u <= 2 ^ 32 /\
        0 <= term_GetSize con (List.length (printed w))
          < line_len con shown u + 14) ->
    exists p,
      runBenchmark env con runs warmup cmd w = Panicked (StringsRepeat p).
Proof.
  intros env con runs warmup cmd w Hruns Hwarm Hgood Hconv Hnarrow.
  unfold runBenchmark.
  destruct (list2Cmdline_cons cmd) as (name & args & ->).
  unfold runBenchmark_parts.
  rewrite (warmup_loop_all_succeed env _ _ Hwarm). cbn [fst snd].
  unfold make_slice. destruct (Z.ltb_spec runs 0) as [Hneg | _]; [lia |].
  cbn [bind].
  destruct (Z.to_nat runs) as [| n] eqn:Hn; [lia |].
  cbn [measure_loop repeat]. unfold measure_body.
  cbn [Run Reset GetRealTime windowsTimer_timer launched processTimer
       printed elapsedRuns currentEstimate].
  rewrite (windowsTimer_Run_good _ _ _ _ Hgood). cbn [fst snd].
  unfold slice_set, slice_get. cbn [List.length].
  assert (Hin : forall x : Z,
             (0 <=? 0) && (0 <? Z.of_nat (S (List.length (repeat x n))))
             = true).
  { intros x. apply andb_true_iff.
    split; [apply Z.leb_le | apply Z.ltb_lt]; lia. }
  rewrite Hin. cbn [bind Z.to_nat update List.length]. rewrite Hin.
  cbn [bind nth].
  rewrite (updateRunningMean_done _ 0 _ ltac:(unfold MaxInt64; lia)).
  cbn [bind].
  match goal with
  | |- context [getMeasurementMetrics ?x] =>
      destruct (getMeasurementMetrics_total x (wrap64_in_range _))
        as [metrics Hmet]; rewrite Hmet
  end.
  cbn [bind shown_estimate shown_unit fraction].
  match goal with
  | |- context [printProgressLine_bar _ (line_len _ ?s ?u) ?pr _] =>
      destruct (Hnarrow s u) as [Hline Hwidth];
      destruct (printProgressLine_bar_narrow (float_to_int con)
                  (line_len con s u) pr
                  (term_GetSize con (List.length (printed w)))
                  Hconv Hline Hwidth) as [p Hp];
      rewrite Hp
  end.
  cbn [bind]. exists p. reflexivity.
Qed.

Lemma runBenchmark_panics_when_narrow_witness :
  exists p,
    runBenchmark steady_env piped_console 5 1 sample_cmd fresh_world
    = Panicked (StringsRepeat p).
Proof.
  apply (runBenchmark_panics_when_narrow steady_env piped_console 5 1
           sample_cmd fresh_world).
  - unfold MaxInt64. lia.
  - intros i Hi. reflexivity.
  - split; reflexivity.
  - intros x. unfold float_to_int, piped_console, trunc_float64.
    destruct (Prim2SF x) as [sg | sg | | sg m e];
      try (unfold in_range, MinInt64, MaxInt64; lia).
    cbv zeta.
    match goal with
    | |- in_range (if ?c then ?v else _) =>
        destruct c eqn:Hc;
        [apply andb_true_iff in Hc; destruct Hc as [Hlo Hhi];
         apply Z.leb_le in Hlo; apply Z.leb_le in Hhi; split; assumption
        | unfold in_range, MinInt64, MaxInt64; lia]
    end.
  - intros shown u. cbn. lia.
Defined.
